(** * SunCalc: solar position and solar events, with a two-tier cache

    A shallow embedding of the [SunCalc] class (a SceneScript library) and
    the properties of its caching policy, its calculators and its accessors.

    - JavaScript numbers are IEEE 754 binary64 values: Rocq's primitive
      [float], with the same rounding, NaN and signed zeros.
    - A [Date] holds a time value: a whole number of milliseconds since the
      epoch, or NaN (an invalid date).  The calendar functions are those of
      ECMAScript (Day, YearFromTime, MakeDay, ...).
    - What the language leaves to the host is a [Host] record: the local
      time zone adjustment, the clock, and the approximations behind
      [Math.sin], [Math.cos], [Math.tan], [Math.acos] and [Math.atan2].
    - Methods that can throw return a [Completion]. *)

From Stdlib Require Import ZArith Lia Bool List String Ascii.
From Stdlib Require Import Floats QArith.
From Stdlib Require Uint63.
Import ListNotations.

Set Warnings "-inexact-float".

(* ================================================================== *)
(** ** Completions *)

Inductive Exception := RangeError | ReferenceError.

Inductive Completion (A : Type) : Type :=
| Normal (a : A)
| Throw (e : Exception).
Arguments Normal {A} a.
Arguments Throw {A} e.

Definition bindC {A B} (c : Completion A) (k : A -> Completion B) : Completion B :=
  match c with
  | Normal a => k a
  | Throw e => Throw e
  end.

Notation "x <-! c ;; k" := (bindC c (fun x => k))
  (at level 61, c at next level, right associativity).

(* ================================================================== *)
(** ** Numbers *)

Module Number.
Open Scope float_scope.

(** [x > y] and [x != y] of JavaScript, on numbers. *)
Definition gt (x y : float) : bool := y <? x.
Definition ne (x y : float) : bool := negb (x =? y).

(** ToBoolean on a number: [0], [-0] and [NaN] are falsy. *)
Definition truthy (x : float) : bool := negb (is_zero x || is_nan x).

(** The largest integer not above a finite number; [None] for NaN and the
    infinities. *)
Definition floorZ (x : float) : option Z :=
  match Prim2SF x with
  | S754_zero _ => Some 0%Z
  | S754_finite s m e =>
      let n := if s then Zneg m else Zpos m in
      Some (if (0 <=? e)%Z then n * 2 ^ e else n / 2 ^ (- e))%Z
  | _ => None
  end.

(** ToIntegerOrInfinity on a finite number (truncation toward zero). *)
Definition truncZ (x : float) : option Z :=
  match Prim2SF x with
  | S754_zero _ => Some 0%Z
  | S754_finite s m e =>
      let n := if s then Zneg m else Zpos m in
      Some (if (0 <=? e)%Z then n * 2 ^ e else Z.quot n (2 ^ (- e)))%Z
  | _ => None
  end.

(** The number whose value is the integer [z] (exact below 2^53). *)
Definition ofZ (z : Z) : float :=
  if (0 <=? z)%Z then of_uint63 (Uint63.of_Z z)
  else - of_uint63 (Uint63.of_Z (- z)).

(** The exact rational value of a finite number. *)
Definition toQ (x : float) : option Q :=
  match Prim2SF x with
  | S754_zero _ => Some 0%Q
  | S754_finite s m e =>
      let n := if s then Zneg m else Zpos m in
      Some (if (0 <=? e)%Z then inject_Z (n * 2 ^ e)
            else Qmake n (Z.to_pos (2 ^ (- e))))
  | _ => None
  end.

End Number.

(* ================================================================== *)
(** ** The host *)

(** What ECMAScript leaves to the implementation.  [LocalTZA t isUTC] is the
    local time zone adjustment in milliseconds; [clock] is the time value
    [new Date()] reads; the five functions are the approximations the
    [Math] object uses away from the arguments whose result the language
    fixes. *)
Record Host := {
  LocalTZA : Z -> bool -> Z;
  clock : Z;
  sin_impl : float -> float;
  cos_impl : float -> float;
  tan_impl : float -> float;
  acos_impl : float -> float;
  atan2_impl : float -> float -> float
}.

Module Math.
Open Scope float_scope.

Definition PI : float := 3.141592653589793.

Definition abs (x : float) : float := PrimFloat.abs x.

(** [Math.floor]: NaN, the infinities, the zeros and numbers that are
    already integers are returned as they are. *)
Definition floor (x : float) : float :=
  match Prim2SF x with
  | S754_finite _ _ e =>
      if (0 <=? e)%Z then x
      else match Number.floorZ x with
           | Some z => Number.ofZ z
           | None => x
           end
  | _ => x
  end.

(** [Math.sin], [Math.cos], [Math.tan]: NaN and the infinities give NaN,
    a zero gives itself (1 for the cosine). *)
Definition sin (h : Host) (x : float) : float :=
  if is_nan x || is_infinity x then nan
  else if is_zero x then x
  else sin_impl h x.

Definition cos (h : Host) (x : float) : float :=
  if is_nan x || is_infinity x then nan
  else if is_zero x then 1
  else cos_impl h x.

Definition tan (h : Host) (x : float) : float :=
  if is_nan x || is_infinity x then nan
  else if is_zero x then x
  else tan_impl h x.

(** [Math.acos]: NaN outside [-1, 1], [+0] at 1. *)
Definition acos (h : Host) (x : float) : float :=
  if is_nan x || (1 <? x) || (x <? -1) then nan
  else if x =? 1 then 0
  else acos_impl h x.

(** [Math.atan2]: NaN when an argument is NaN. *)
Definition atan2 (h : Host) (y x : float) : float :=
  if is_nan y || is_nan x then nan
  else atan2_impl h y x.

End Math.

(* ================================================================== *)
(** ** Dates *)

Module Date.
Open Scope Z_scope.

(** A Date object's time value: milliseconds since the epoch, [None] for
    NaN (an invalid date). *)
Definition t := option Z.

Definition msPerSecond := 1000.
Definition msPerMinute := 60000.
Definition msPerHour := 3600000.
Definition msPerDay := 86400000.

Definition Day (tv : Z) : Z := tv / msPerDay.
Definition TimeWithinDay (tv : Z) : Z := tv mod msPerDay.

Definition DaysInYear (y : Z) : Z :=
  if (y mod 4 =? 0) && (negb (y mod 100 =? 0) || (y mod 400 =? 0)) then 366 else 365.

Definition DayFromYear (y : Z) : Z :=
  365 * (y - 1970) + (y - 1969) / 4 - (y - 1901) / 100 + (y - 1601) / 400.

(** The year of a day number: the largest [y] with [DayFromYear y <= d],
    found from the mean year length and one correction step. *)
Definition YearFromDay (d : Z) : Z :=
  let y := 1970 + d * 400 / 146097 in
  if d <? DayFromYear y then y - 1
  else if DayFromYear (y + 1) <=? d then y + 1
  else y.

Definition YearFromTime (tv : Z) : Z := YearFromDay (Day tv).
Definition InLeapYear (tv : Z) : Z := DaysInYear (YearFromTime tv) - 365.
Definition DayWithinYear (tv : Z) : Z := Day tv - DayFromYear (YearFromTime tv).

(** First day of month [m] (0 to 11) within a year; [leap] is 0 or 1. *)
Definition monthStart (leap m : Z) : Z :=
  match m with
  | 0 => 0 | 1 => 31 | 2 => 59 + leap | 3 => 90 + leap
  | 4 => 120 + leap | 5 => 151 + leap | 6 => 181 + leap | 7 => 212 + leap
  | 8 => 243 + leap | 9 => 273 + leap | 10 => 304 + leap | 11 => 334 + leap
  | _ => 365 + leap
  end.

Definition MonthFromDay (leap d : Z) : Z :=
  if d <? 31 then 0 else if d <? 59 + leap then 1
  else if d <? 90 + leap then 2 else if d <? 120 + leap then 3
  else if d <? 151 + leap then 4 else if d <? 181 + leap then 5
  else if d <? 212 + leap then 6 else if d <? 243 + leap then 7
  else if d <? 273 + leap then 8 else if d <? 304 + leap then 9
  else if d <? 334 + leap then 10 else 11.

Definition MonthFromTime (tv : Z) : Z := MonthFromDay (InLeapYear tv) (DayWithinYear tv).
Definition DateFromTime (tv : Z) : Z :=
  DayWithinYear tv - monthStart (InLeapYear tv) (MonthFromTime tv) + 1.
Definition HourFromTime (tv : Z) : Z := (tv / msPerHour) mod 24.
Definition MinFromTime (tv : Z) : Z := (tv / msPerMinute) mod 60.
Definition SecFromTime (tv : Z) : Z := (tv / msPerSecond) mod 60.
Definition msFromTime (tv : Z) : Z := tv mod msPerSecond.

Definition MakeTime (hour min sec ms : Z) : Z :=
  hour * msPerHour + min * msPerMinute + sec * msPerSecond + ms.

Definition MakeDay (year month date : Z) : Z :=
  let ym := year + month / 12 in
  let mn := month mod 12 in
  DayFromYear ym + monthStart (DaysInYear ym - 365) mn + date - 1.

Definition MakeDate (day time : Z) : Z := day * msPerDay + time.

Definition TimeClip (tv : Z) : t :=
  if Z.abs tv <=? 8640000000000000 then Some tv else None.

Definition LocalTime (h : Host) (tv : Z) : Z := tv + LocalTZA h tv true.
Definition UTC (h : Host) (tv : Z) : Z := tv - LocalTZA h tv false.

(** *** Construction *)

(** [new Date()]. *)
Definition now (h : Host) : t := Some (clock h).

(** [new Date(d)] for a Date object [d]: a copy of its time value. *)
Definition copy (d : t) : t := d.

(** [new Date(year, month, date, hours, minutes, seconds)], local time.
    An argument is [None] when the getter it comes from returned NaN; years
    0 to 99 stand for 1900 to 1999. *)
Definition ofComponents (h : Host) (year month date : option Z)
    (hours minutes seconds : Z) : t :=
  match year, month, date with
  | Some y, Some m, Some dt =>
      let yr := if (0 <=? y) && (y <=? 99) then 1900 + y else y in
      TimeClip (UTC h (MakeDate (MakeDay yr m dt) (MakeTime hours minutes seconds 0)))
  | _, _, _ => None
  end.

(** *** Getters (local time); [None] is NaN. *)

Definition getFullYear (h : Host) (d : t) : option Z :=
  option_map (fun tv => YearFromTime (LocalTime h tv)) d.
Definition getMonth (h : Host) (d : t) : option Z :=
  option_map (fun tv => MonthFromTime (LocalTime h tv)) d.
Definition getDate (h : Host) (d : t) : option Z :=
  option_map (fun tv => DateFromTime (LocalTime h tv)) d.
Definition getHours (h : Host) (d : t) : option Z :=
  option_map (fun tv => HourFromTime (LocalTime h tv)) d.
Definition getMinutes (h : Host) (d : t) : option Z :=
  option_map (fun tv => MinFromTime (LocalTime h tv)) d.
Definition getSeconds (h : Host) (d : t) : option Z :=
  option_map (fun tv => SecFromTime (LocalTime h tv)) d.

(** A getter's result as a number. *)
Definition num (v : option Z) : float :=
  match v with
  | Some z => Number.ofZ z
  | None => nan
  end.

Definition getTimezoneOffset (h : Host) (d : t) : float :=
  match d with
  | Some tv => (Number.ofZ (tv - LocalTime h tv) / Number.ofZ msPerMinute)%float
  | None => nan
  end.

(** ToNumber of a Date object (its [valueOf]), as in [a - b] on dates. *)
Definition valueOf (d : t) : float := num d.

(** *** Setters (local time) *)

(** [d.setMinutes(min)]: the minute field is replaced by the integer part
    of [min]; a NaN or infinite [min], or an invalid date, gives an
    invalid date. *)
Definition setMinutes (h : Host) (d : t) (min : float) : t :=
  match d, Number.truncZ min with
  | Some tv, Some m =>
      let lt := LocalTime h tv in
      TimeClip (UTC h (MakeDate (Day lt)
        (MakeTime (HourFromTime lt) m (SecFromTime lt) (msFromTime lt))))
  | _, _ => None
  end.

(** [d.setSeconds(sec)]. *)
Definition setSeconds (h : Host) (d : t) (sec : float) : t :=
  match d, Number.truncZ sec with
  | Some tv, Some s =>
      let lt := LocalTime h tv in
      TimeClip (UTC h (MakeDate (Day lt)
        (MakeTime (HourFromTime lt) (MinFromTime lt) s (msFromTime lt))))
  | _, _ => None
  end.

(** *** ISO 8601 strings *)

Definition digit (n : Z) : ascii := ascii_of_nat (48 + Z.to_nat n).

Definition pad2 (n : Z) (rest : string) : string :=
  String (digit (n / 10 mod 10)) (String (digit (n mod 10)) rest).
Definition pad3 (n : Z) (rest : string) : string :=
  String (digit (n / 100 mod 10)) (pad2 n rest).
Definition pad4 (n : Z) (rest : string) : string :=
  String (digit (n / 1000 mod 10)) (pad3 n rest).
Definition pad6 (n : Z) (rest : string) : string :=
  String (digit (n / 100000 mod 10)) (String (digit (n / 10000 mod 10)) (pad4 n rest)).

(** Years 0 to 9999 take four digits, the others a sign and six. *)
Definition yearString (y : Z) (rest : string) : string :=
  if (0 <=? y) && (y <=? 9999) then pad4 y rest
  else String (if y <? 0 then "-"%char else "+"%char) (pad6 (Z.abs y) rest).

Definition isoOfTime (tv : Z) : string :=
  yearString (YearFromTime tv)
    (String "-" (pad2 (MonthFromTime tv + 1)
    (String "-" (pad2 (DateFromTime tv)
    (String "T" (pad2 (HourFromTime tv)
    (String ":" (pad2 (MinFromTime tv)
    (String ":" (pad2 (SecFromTime tv)
    (String "." (pad3 (msFromTime tv) "Z")))))))))))).

(** [d.toISOString()]: a RangeError on an invalid date. *)
Definition toISOString (d : t) : Completion string :=
  match d with
  | Some tv => Normal (isoOfTime tv)
  | None => Throw RangeError
  end.

Definition digitVal (c : ascii) : option Z :=
  let n := Z.of_nat (nat_of_ascii c) - 48 in
  if (0 <=? n) && (n <=? 9) then Some n else None.

(** Reads [n] decimal digits after the accumulated value [acc]. *)
Fixpoint readNum (n : nat) (acc : Z) (s : string) : option (Z * string) :=
  match n with
  | O => Some (acc, s)
  | S n' =>
      match s with
      | String c r =>
          match digitVal c with
          | Some v => readNum n' (10 * acc + v) r
          | None => None
          end
      | EmptyString => None
      end
  end.

Definition expect (c : ascii) (s : string) : option string :=
  match s with
  | String c' r => if Ascii.eqb c c' then Some r else None
  | EmptyString => None
  end.

Definition readYear (s : string) : option (Z * string) :=
  match s with
  | String "+" r => readNum 6 0 r
  | String "-" r =>
      match readNum 6 0 r with
      | Some (y, r') => Some (- y, r')
      | None => None
      end
  | _ => readNum 4 0 s
  end.

Definition bindO {A B} (o : option A) (k : A -> option B) : option B :=
  match o with
  | Some a => k a
  | None => None
  end.

(** The time value of a date-time string in the format [toISOString]
    writes, with or without the milliseconds; any other string is an
    invalid date. *)
Definition parseTime (s : string) : option Z :=
  bindO (readYear s) (fun '(y, s) =>
  bindO (expect "-" s) (fun s =>
  bindO (readNum 2 0 s) (fun '(mo, s) =>
  bindO (expect "-" s) (fun s =>
  bindO (readNum 2 0 s) (fun '(dt, s) =>
  bindO (expect "T" s) (fun s =>
  bindO (readNum 2 0 s) (fun '(hh, s) =>
  bindO (expect ":" s) (fun s =>
  bindO (readNum 2 0 s) (fun '(mi, s) =>
  bindO (expect ":" s) (fun s =>
  bindO (readNum 2 0 s) (fun '(ss, s) =>
  bindO (match s with
         | String "." r => readNum 3 0 r
         | _ => Some (0, s)
         end) (fun '(ms, s) =>
  if String.eqb s "Z"
     && (1 <=? mo) && (mo <=? 12) && (1 <=? dt) && (dt <=? 31)
     && (hh <=? 23) && (mi <=? 59) && (ss <=? 59)
  then Some (MakeDate (MakeDay y (mo - 1) dt) (MakeTime hh mi ss ms))
  else None)))))))))))).

(** [new Date(s)] for a string [s]. *)
Definition ofString (s : string) : t := bindO (parseTime s) TimeClip.

End Date.

(* ================================================================== *)
(** ** Vectors and coordinates *)

(** The host's vector classes, of which the class reads and writes only
    the number properties [x], [y] and [z]. *)
Module Vec2.
Record t := mk { x : float; y : float }.
End Vec2.

Module Vec3.
Record t := mk { x : float; y : float; z : float }.
End Vec3.

(** The [coordinates] argument is a [Vec2] or a [Vec3]; only a [Vec3] has
    a [z] property. *)
Inductive Coordinates :=
| V2 (v : Vec2.t)
| V3 (v : Vec3.t).

Module Coord.
Definition x (c : Coordinates) : float :=
  match c with V2 v => Vec2.x v | V3 v => Vec3.x v end.
Definition y (c : Coordinates) : float :=
  match c with V2 v => Vec2.y v | V3 v => Vec3.y v end.
Definition hasOwnZ (c : Coordinates) : bool :=
  match c with V2 _ => false | V3 _ => true end.
(** [coordinates.z] where a number is expected: [undefined] becomes NaN. *)
Definition z (c : Coordinates) : float :=
  match c with V2 _ => nan | V3 v => Vec3.z v end.
(** [coordinates.x = a; coordinates.y = b], in place. *)
Definition setXY (c : Coordinates) (a b : float) : Coordinates :=
  match c with
  | V2 _ => V2 (Vec2.mk a b)
  | V3 v => V3 (Vec3.mk a b (Vec3.z v))
  end.
End Coord.

(* ================================================================== *)
(** ** The engine state *)

(** The ten event fields, in the order the class declares them. *)
Record Events := {
  _sunrise_ : Date.t;
  _sunset_ : Date.t;
  _solar_noon_ : Date.t;
  _solar_midnight_ : Date.t;
  _civil_dawn_ : Date.t;
  _civil_dusk_ : Date.t;
  _nautical_dawn_ : Date.t;
  _nautical_dusk_ : Date.t;
  _astronomical_dawn_ : Date.t;
  _astronomical_dusk_ : Date.t
}.

(** An instance of the class.  The event fields and the sun position hold
    the number 0 only between their declaration in the constructor and the
    two calculator calls that end it, so they are dates and numbers here. *)
Record SunCalc := {
  _latitude_ : float;
  _longitude_ : float;
  _altitude_ : float;
  _date_ : Date.t;
  _timezone_ : float;
  events : Events;
  _sun_elevation_ : float;
  _sun_azimuth_ : float;
  _latitude_trig_ : Vec3.t;
  _last_date_ : string
}.

Definition with_events (s : SunCalc) (e : Events) : SunCalc :=
  {| _latitude_ := _latitude_ s; _longitude_ := _longitude_ s;
     _altitude_ := _altitude_ s; _date_ := _date_ s;
     _timezone_ := _timezone_ s; events := e;
     _sun_elevation_ := _sun_elevation_ s; _sun_azimuth_ := _sun_azimuth_ s;
     _latitude_trig_ := _latitude_trig_ s; _last_date_ := _last_date_ s |}.

Definition with_sun (s : SunCalc) (elevation azimuth : float) : SunCalc :=
  {| _latitude_ := _latitude_ s; _longitude_ := _longitude_ s;
     _altitude_ := _altitude_ s; _date_ := _date_ s;
     _timezone_ := _timezone_ s; events := events s;
     _sun_elevation_ := elevation; _sun_azimuth_ := azimuth;
     _latitude_trig_ := _latitude_trig_ s; _last_date_ := _last_date_ s |}.

Definition with_date (s : SunCalc) (d : Date.t) : SunCalc :=
  {| _latitude_ := _latitude_ s; _longitude_ := _longitude_ s;
     _altitude_ := _altitude_ s; _date_ := d;
     _timezone_ := _timezone_ s; events := events s;
     _sun_elevation_ := _sun_elevation_ s; _sun_azimuth_ := _sun_azimuth_ s;
     _latitude_trig_ := _latitude_trig_ s; _last_date_ := _last_date_ s |}.

Definition with_last_date (s : SunCalc) (l : string) : SunCalc :=
  {| _latitude_ := _latitude_ s; _longitude_ := _longitude_ s;
     _altitude_ := _altitude_ s; _date_ := _date_ s;
     _timezone_ := _timezone_ s; events := events s;
     _sun_elevation_ := _sun_elevation_ s; _sun_azimuth_ := _sun_azimuth_ s;
     _latitude_trig_ := _latitude_trig_ s; _last_date_ := l |}.

Definition with_location (s : SunCalc) (lat lon alt tz : float) (trig : Vec3.t)
  : SunCalc :=
  {| _latitude_ := lat; _longitude_ := lon; _altitude_ := alt;
     _date_ := _date_ s; _timezone_ := tz; events := events s;
     _sun_elevation_ := _sun_elevation_ s; _sun_azimuth_ := _sun_azimuth_ s;
     _latitude_trig_ := trig; _last_date_ := _last_date_ s |}.

(* ================================================================== *)
(** ** The two calculators *)

Section Calculators.
Variable h : Host.
Open Scope float_scope.

(** The fractional year in radians, from the three dates both calculators
    build. *)
Definition fractYear (instant startOfYear startOfNextYear : Date.t) : float :=
  (Date.valueOf instant - Date.valueOf startOfYear)
  / (Date.valueOf startOfNextYear - Date.valueOf startOfYear)
  * (Math.PI + Math.PI).

(** Equation of time, in minutes. *)
Definition eqtimeOf (fract_year_rad : float) : float :=
  let time_radians := Vec2.mk (Math.cos h fract_year_rad) (Math.sin h fract_year_rad) in
  let time_radians_2 :=
    Vec2.mk (Math.cos h (fract_year_rad + fract_year_rad))
            (Math.sin h (fract_year_rad + fract_year_rad)) in
  229.18 * (0.000075 + 0.001868 * Vec2.x time_radians
            - 0.032077 * Vec2.y time_radians
            - 0.014615 * Vec2.x time_radians_2
            - 0.040849 * Vec2.y time_radians_2).

(** Solar declination, in radians. *)
Definition declinationOf (fract_year_rad : float) : float :=
  let time_radians := Vec2.mk (Math.cos h fract_year_rad) (Math.sin h fract_year_rad) in
  let time_radians_2 :=
    Vec2.mk (Math.cos h (fract_year_rad + fract_year_rad))
            (Math.sin h (fract_year_rad + fract_year_rad)) in
  0.006918 - 0.399912 * Vec2.x time_radians + 0.070257 * Vec2.y time_radians
  - 0.006758 * Vec2.x time_radians_2 + 0.000907 * Vec2.y time_radians_2
  - 0.002697 * Math.cos h (fract_year_rad * 3)
  + 0.00148 * Math.sin h (fract_year_rad * 3).

(** The fractional year [_updateStatic_] uses: from the start of the day
    after the reference date. *)
Definition staticFractYear (s : SunCalc) : float :=
  let d := _date_ s in
  let startOfYear := Date.ofComponents h (Date.getFullYear h d) (Some 0%Z) (Some 1%Z) 0 0 0 in
  let startOfNextYear :=
    Date.ofComponents h (option_map (Z.add 1) (Date.getFullYear h d)) (Some 0%Z) (Some 1%Z) 0 0 0 in
  let thisDate :=
    Date.ofComponents h (Date.getFullYear h d) (Date.getMonth h d)
      (option_map (Z.add 1) (Date.getDate h d)) 0 0 0 in
  fractYear thisDate startOfYear startOfNextYear.

(** [computeHourAngle(threshold)] of [_updateStatic_], in degrees. *)
Definition computeHourAngle (s : SunCalc) (threshold : float) : float :=
  let declination := declinationOf (staticFractYear s) in
  let cos := Math.cos h declination * Vec3.y (_latitude_trig_ s) in
  let tan := Math.tan h declination * Vec3.z (_latitude_trig_ s) in
  let altitude := 2.076e-4 * _altitude_ s * 0.01745329 in
  Math.acos h ((threshold - altitude) / cos - tan) * 57.2957795.

(** [computeTime(hourAngle)] of [_updateStatic_]: minutes from the start
    of the day. *)
Definition computeTime (s : SunCalc) (hourAngle : float) : float :=
  let eqtime := eqtimeOf (staticFractYear s) in
  let longitude := _longitude_ s * 57.2957795 in
  720 - 4 * (longitude + hourAngle) - eqtime.

(** Midnight of the reference date, local time. *)
Definition time_template (s : SunCalc) : Date.t :=
  let d := _date_ s in
  Date.ofComponents h (Date.getFullYear h d) (Date.getMonth h d) (Date.getDate h d) 0 0 0.

(** One event field: a copy of the template with its minutes, then its
    seconds, set from [m]. *)
Definition eventDate (template : Date.t) (m : float) : Date.t :=
  let d := Date.copy template in
  let d := Date.setMinutes h d (Math.floor m) in
  Date.setSeconds h d ((m - Math.floor m) * 60).

Definition hour_angle_h (s : SunCalc) := computeHourAngle s (-0.0145381).
Definition hour_angle_c (s : SunCalc) := computeHourAngle s (-0.1045285).
Definition hour_angle_n (s : SunCalc) := computeHourAngle s (-0.2079117).
Definition hour_angle_a (s : SunCalc) := computeHourAngle s (-0.309017).

Definition _updateStatic_ (s : SunCalc) : SunCalc :=
  let sunrise_m := computeTime s (hour_angle_h s) in
  let sunset_m := computeTime s (- hour_angle_h s) in
  let solar_noon_m := computeTime s 0 in
  let solar_midnight_m := computeTime s (-180) in
  let civil_dawn_m := computeTime s (hour_angle_c s) in
  let civil_dusk_m := computeTime s (- hour_angle_c s) in
  let nautical_dawn_m := computeTime s (hour_angle_n s) in
  let nautical_dusk_m := computeTime s (- hour_angle_n s) in
  let astronomical_dawn_m := computeTime s (hour_angle_a s) in
  let astronomical_dusk_m := computeTime s (- hour_angle_a s) in
  let tt := time_template s in
  with_events s
    {| _sunrise_ := eventDate tt sunrise_m;
       _sunset_ := eventDate tt sunset_m;
       _solar_noon_ := eventDate tt solar_noon_m;
       _solar_midnight_ := eventDate tt solar_midnight_m;
       _civil_dawn_ := eventDate tt civil_dawn_m;
       _civil_dusk_ := eventDate tt civil_dusk_m;
       _nautical_dawn_ := eventDate tt nautical_dawn_m;
       _nautical_dusk_ := eventDate tt nautical_dusk_m;
       _astronomical_dawn_ := eventDate tt astronomical_dawn_m;
       _astronomical_dusk_ := eventDate tt astronomical_dusk_m |}.

(** The fractional year [_updateDynamic_] uses: from the reference instant
    itself. *)
Definition dynamicFractYear (s : SunCalc) : float :=
  let d := _date_ s in
  let startOfYear := Date.ofComponents h (Date.getFullYear h d) (Some 0%Z) (Some 1%Z) 0 0 0 in
  let startOfNextYear :=
    Date.ofComponents h (option_map (Z.add 1) (Date.getFullYear h d)) (Some 0%Z) (Some 1%Z) 0 0 0 in
  fractYear d startOfYear startOfNextYear.

Definition _updateDynamic_ (s : SunCalc) : SunCalc :=
  let fract_year_rad := dynamicFractYear s in
  let eqtime := eqtimeOf fract_year_rad in
  let declination := declinationOf fract_year_rad in
  let declination_trig_x := Math.sin h declination in
  let declination_trig_y := Math.cos h declination in
  let declination_trig_z := declination_trig_x / declination_trig_y in
  let d := _date_ s in
  let time_offset := eqtime + 4 * _longitude_ s * 57.2957795 - _timezone_ s in
  let solar_time :=
    Date.num (Date.getHours h d) * 60 + Date.num (Date.getMinutes h d)
    + Date.num (Date.getSeconds h d) * 0.01666667 + time_offset in
  let hour_angle := (solar_time * 0.25 - 180) * 0.01745329 in
  let cos := Math.cos h hour_angle in
  let elevation :=
    Math.acos h (Vec3.x (_latitude_trig_ s) * declination_trig_x
                 + Vec3.y (_latitude_trig_ s) * declination_trig_y * cos)
    * 57.2957795 in
  let refraction := -0.0167 / Math.tan h (elevation + 10.3 / (elevation + 5.11)) in
  let altitude := 2.076e-4 * _altitude_ s in
  let azimuth :=
    Math.PI + Math.atan2 h (Math.sin h hour_angle)
                (cos * Vec3.x (_latitude_trig_ s)
                 - declination_trig_z * Vec3.y (_latitude_trig_ s)) in
  with_sun s (90 - elevation + refraction + altitude) (azimuth * 57.2957795).

(** The value of the local [elevation] of [_updateDynamic_]: the
    arccosine, in degrees, of the sine of the sun's height (a zenith
    angle). *)
Definition zenithAngle (s : SunCalc) : float :=
  let fract_year_rad := dynamicFractYear s in
  let declination := declinationOf fract_year_rad in
  let time_offset :=
    eqtimeOf fract_year_rad + 4 * _longitude_ s * 57.2957795 - _timezone_ s in
  let d := _date_ s in
  let solar_time :=
    Date.num (Date.getHours h d) * 60 + Date.num (Date.getMinutes h d)
    + Date.num (Date.getSeconds h d) * 0.01666667 + time_offset in
  let hour_angle := (solar_time * 0.25 - 180) * 0.01745329 in
  Math.acos h (Vec3.x (_latitude_trig_ s) * Math.sin h declination
               + Vec3.y (_latitude_trig_ s) * Math.cos h declination
                 * Math.cos h hour_angle)
  * 57.2957795.

(** The value of its local [refraction], from that angle. *)
Definition refractionOf (elevation : float) : float :=
  -0.0167 / Math.tan h (elevation + 10.3 / (elevation + 5.11)).

End Calculators.

(* ================================================================== *)
(** ** The class *)

(** The three components of [_latitude_trig_]: sine, cosine, and their
    quotient. *)
Definition latitudeTrig (h : Host) (latitude : float) : Vec3.t :=
  let x := Math.sin h latitude in
  let y := Math.cos h latitude in
  Vec3.mk x y (x / y)%float.

(** The constructor from its second statement on, [d] being the value it
    has just stored in [_date_]. *)
Definition construct (h : Host) (coordinates : Coordinates) (d : Date.t)
    (timezone : option float) : SunCalc :=
  let latitude := (Coord.x coordinates * 0.01745329)%float in
  let longitude := (Coord.y coordinates * 0.01745329)%float in
  let altitude := if Coord.hasOwnZ coordinates then Coord.z coordinates else 0%float in
  let tz :=
    match timezone with
    | Some t => if negb (Number.truthy t)
                then (- Date.getTimezoneOffset h d)%float
                else Math.floor t
    | None => (- Date.getTimezoneOffset h d)%float
    end in
  let zero : Date.t := Some 0%Z in
  let this :=
    {| _latitude_ := latitude; _longitude_ := longitude; _altitude_ := altitude;
       _date_ := d; _timezone_ := tz;
       events := {| _sunrise_ := zero; _sunset_ := zero; _solar_noon_ := zero;
                    _solar_midnight_ := zero; _civil_dawn_ := zero;
                    _civil_dusk_ := zero; _nautical_dawn_ := zero;
                    _nautical_dusk_ := zero; _astronomical_dawn_ := zero;
                    _astronomical_dusk_ := zero |};
       _sun_elevation_ := 0; _sun_azimuth_ := 0;
       _latitude_trig_ := latitudeTrig h latitude;
       _last_date_ := "1970-01-01T00:00:00Z" |} in
  _updateDynamic_ h (_updateStatic_ h this).

(** [new SunCalc(coordinates, date, timezone)].  An optional argument is
    [None] when the caller omits it.  [date] is copied through its ISO
    string, which throws on an invalid date. *)
Definition constructor (h : Host) (coordinates : Coordinates)
    (date : option Date.t) (timezone : option float) : Completion SunCalc :=
  d <-! match date with
        | Some date => iso <-! Date.toISOString date ;; Normal (Date.ofString iso)
        | None => Normal (Date.now h)
        end ;;
  Normal (construct h coordinates d timezone).

(** The test of [setLocation], on the coordinates already converted. *)
Definition locationChanged (s : SunCalc) (coordinates : Coordinates)
    (timezone : float) : bool :=
  Number.gt (Math.abs (Coord.x coordinates - _latitude_ s)) 1e-8
  || Number.gt (Math.abs (Coord.y coordinates - _longitude_ s)) 1e-8
  || Number.gt (Math.abs (Coord.z coordinates - _altitude_ s)) 1e-2
  || Number.ne (_timezone_ s) timezone.

(** The first line of [setLocation]:
    [timezone ? Math.floor(timezone) : this._timezone_]. *)
Definition locationTimezone (s : SunCalc) (timezone : option float) : float :=
  match timezone with
  | Some t => if Number.truthy t then Math.floor t else _timezone_ s
  | None => _timezone_ s
  end.

(** [setLocation] returns the instance and the caller's [coordinates]
    object, which it writes to. *)
Definition setLocation (h : Host) (s : SunCalc) (coordinates : Coordinates)
    (timezone : option float) : SunCalc * Coordinates :=
  let timezone := locationTimezone s timezone in
  let coordinates :=
    Coord.setXY coordinates (Coord.x coordinates * 0.01745329)%float
                            (Coord.y coordinates * 0.01745329)%float in
  if locationChanged s coordinates timezone then
    let latitude := Coord.x coordinates in
    let altitude := if Coord.hasOwnZ coordinates then Coord.z coordinates else 0%float in
    let s := with_location s latitude (Coord.y coordinates) altitude timezone
               (latitudeTrig h latitude) in
    (_updateDynamic_ h (_updateStatic_ h s), coordinates)
  else (s, coordinates).

(** [setDateTime] assigns to two variables it does not declare, [newDate]
    and [currentDate].  A class body is strict code, so each assignment
    needs a binding of that name to exist already in the enclosing scope,
    and throws a ReferenceError otherwise. *)
Inductive Binding :=
| Unresolvable
| Bound (v : string).

Record Globals := { newDate : Binding; currentDate : Binding }.

Definition assign (b : Binding) (v : string) : Completion Binding :=
  match b with
  | Unresolvable => Throw ReferenceError
  | Bound _ => Normal (Bound v)
  end.

(** The outcome of a call: the bindings and the instance as the call
    leaves them, and the exception it threw, if any. *)
Record Outcome := {
  globals : Globals;
  this : SunCalc;
  thrown : option Exception
}.

Definition setDateTime (h : Host) (g : Globals) (s : SunCalc) (date : Date.t)
  : Outcome :=
  match Date.toISOString date with
  | Throw e => Build_Outcome g s (Some e)
  | Normal nd =>
  match assign (newDate g) nd with
  | Throw e => Build_Outcome g s (Some e)
  | Normal b =>
  let g := {| newDate := b; currentDate := currentDate g |} in
  match Date.toISOString (_date_ s) with
  | Throw e => Build_Outcome g s (Some e)
  | Normal cd =>
  match assign (currentDate g) cd with
  | Throw e => Build_Outcome g s (Some e)
  | Normal b =>
  let g := {| newDate := newDate g; currentDate := b |} in
  if negb (String.eqb (substring 0 19 cd) (substring 0 19 nd)) then
    let s := with_date s (Date.ofString nd) in
    let s := _updateDynamic_ h s in
    if negb (String.eqb (substring 0 10 cd) (substring 0 10 (_last_date_ s))) then
      match Date.toISOString (Date.ofString cd) with
      | Throw e => Build_Outcome g s (Some e)
      | Normal l => Build_Outcome g (_updateStatic_ h (with_last_date s l)) None
      end
    else Build_Outcome g s None
  else Build_Outcome g s None
  end end end end.

Definition getCoordinates (s : SunCalc) : Vec3.t :=
  Vec3.mk (_latitude_ s * 57.2957795)%float (_longitude_ s * 57.2957795)%float
          (_altitude_ s).

Definition getTimezone (s : SunCalc) : float := _timezone_ s.

(** The first line of every accessor that takes a [timezone]. *)
Definition resolveTimezone (s : SunCalc) (timezone : option float) : float :=
  match timezone with
  | Some t => if is_finite t then Math.floor t else _timezone_ s
  | None => _timezone_ s
  end.

(** Its other lines: a copy of the stored date, its minutes moved by the
    offset. *)
Definition shifted (h : Host) (stored : Date.t) (timezone : float) : Date.t :=
  let date := Date.copy stored in
  Date.setMinutes h date (Date.num (Date.getMinutes h stored) + timezone)%float.

Definition getDateTime (h : Host) (s : SunCalc) (timezone : option float) : Date.t :=
  shifted h (_date_ s) (resolveTimezone s timezone).

Definition getSunPosition (s : SunCalc) : Vec2.t :=
  Vec2.mk (_sun_azimuth_ s) (_sun_elevation_ s).

Definition getSunrise (h : Host) (s : SunCalc) (timezone : option float) : Date.t :=
  shifted h (_sunrise_ (events s)) (resolveTimezone s timezone).
Definition getSunset (h : Host) (s : SunCalc) (timezone : option float) : Date.t :=
  shifted h (_sunset_ (events s)) (resolveTimezone s timezone).
Definition getSolarNoon (h : Host) (s : SunCalc) (timezone : option float) : Date.t :=
  shifted h (_solar_noon_ (events s)) (resolveTimezone s timezone).
Definition getSolarMidnight (h : Host) (s : SunCalc) (timezone : option float) : Date.t :=
  shifted h (_solar_midnight_ (events s)) (resolveTimezone s timezone).
Definition getCivilDawn (h : Host) (s : SunCalc) (timezone : option float) : Date.t :=
  shifted h (_civil_dawn_ (events s)) (resolveTimezone s timezone).
Definition getCivilDusk (h : Host) (s : SunCalc) (timezone : option float) : Date.t :=
  shifted h (_civil_dusk_ (events s)) (resolveTimezone s timezone).
Definition getNauticalDawn (h : Host) (s : SunCalc) (timezone : option float) : Date.t :=
  shifted h (_nautical_dawn_ (events s)) (resolveTimezone s timezone).
Definition getNauticalDusk (h : Host) (s : SunCalc) (timezone : option float) : Date.t :=
  shifted h (_nautical_dusk_ (events s)) (resolveTimezone s timezone).
Definition getAstronomicalDawn (h : Host) (s : SunCalc) (timezone : option float) : Date.t :=
  shifted h (_astronomical_dawn_ (events s)) (resolveTimezone s timezone).
Definition getAstronomicalDusk (h : Host) (s : SunCalc) (timezone : option float) : Date.t :=
  shifted h (_astronomical_dusk_ (events s)) (resolveTimezone s timezone).

(* ================================================================== *)
(** ** A reference host *)

(** Series approximations of the five functions, good to about 1e-15 on
    the arguments the calculators produce, for running the class on
    concrete inputs. *)
Module RefMath.
Open Scope float_scope.

Definition twoPI : float := 6.283185307179586.
Definition halfPI : float := 1.5707963267948966.

(** Adds [n] more terms of an alternating series in [x2]: each term is the
    previous one times [- x2 / ((k + 1) (k + 2))]. *)
Fixpoint series (n : nat) (k term x2 acc : float) : float :=
  match n with
  | O => acc
  | S n' =>
      let term' := - term * x2 / ((k + 1) * (k + 2)) in
      series n' (k + 2) term' x2 (acc + term')
  end.

Definition sin0 (r : float) : float := series 14 1 r (r * r) r.
Definition cos0 (r : float) : float := series 14 0 1 (r * r) 1.

(** The argument brought into [-pi, pi]. *)
Definition reduce (x : float) : float := x - twoPI * Math.floor (x / twoPI + 0.5).

Definition sin (x : float) : float :=
  let r := reduce x in
  if halfPI <? r then sin0 (Math.PI - r)
  else if r <? - halfPI then sin0 (- Math.PI - r)
  else sin0 r.

Definition cos (x : float) : float :=
  let r := reduce x in
  if halfPI <? r then - cos0 (Math.PI - r)
  else if r <? - halfPI then - cos0 (- Math.PI - r)
  else cos0 r.

Definition tan (x : float) : float := sin x / cos x.

(** [z - z^3/3 + z^5/5 - ...], [n] more terms. *)
Fixpoint atanSeries (n : nat) (k pow z2 acc : float) : float :=
  match n with
  | O => acc
  | S n' =>
      let pow' := - pow * z2 in
      atanSeries n' (k + 2) pow' z2 (acc + pow' / (k + 2))
  end.

Definition halve (z : float) : float := z / (1 + sqrt (1 + z * z)).

(** The arctangent on [-1, 1]: three halvings of the angle, then the
    series. *)
Definition atan1 (z : float) : float :=
  let w := halve (halve (halve z)) in
  8 * atanSeries 14 1 w (w * w) w.

Definition atan (z : float) : float :=
  if 1 <? z then halfPI - atan1 (1 / z)
  else if z <? -1 then - halfPI - atan1 (1 / z)
  else atan1 z.

Definition atan2 (y x : float) : float :=
  if 0 <? x then atan (y / x)
  else if x <? 0 then (if y <? 0 then atan (y / x) - Math.PI else atan (y / x) + Math.PI)
  else if 0 <? y then halfPI
  else if y <? 0 then - halfPI
  else 0.

Definition acos (x : float) : float := atan2 (sqrt ((1 - x) * (1 + x))) x.

End RefMath.

(** The reference host: a fixed local offset of [tzaMinutes] minutes east
    of UTC, the clock at [now]. *)
Definition refHost (tzaMinutes now : Z) : Host :=
  {| LocalTZA := fun _ _ => (tzaMinutes * 60000)%Z;
     clock := now;
     sin_impl := RefMath.sin;
     cos_impl := RefMath.cos;
     tan_impl := RefMath.tan;
     acos_impl := RefMath.acos;
     atan2_impl := RefMath.atan2 |}.

(* ================================================================== *)
(** ** Vocabulary of the statements *)

(** The years [toISOString] writes with four digits. *)
Definition fourDigitYear (tv : Z) : Prop :=
  (0 <= Date.YearFromTime tv <= 9999)%Z.

(** A host whose local offset never changes (no daylight saving). *)
Definition fixedOffset (h : Host) (off : Z) : Prop :=
  forall tv isUTC, LocalTZA h tv isUTC = off.







(** The instant [m] minutes after [t0], as [eventDate] reaches it: whole
    minutes first, then the whole seconds of what is left. *)
Definition anchored (t0 : Z) (m : float) : Date.t :=
  match Number.truncZ (Math.floor m),
        Number.truncZ ((m - Math.floor m) * 60)%float with
  | Some a, Some b =>
      Date.bindO (Date.TimeClip (t0 + a * 60000)%Z)
                 (fun t1 => Date.TimeClip (t1 + b * 1000)%Z)
  | _, _ => None
  end.

(** At the instant [x] the local offset of the host is [off], and the
    local time [x + off] is read back with the same offset. *)
Definition offsetAt (h : Host) (off x : Z) : Prop :=
  LocalTZA h x true = off /\ LocalTZA h (x + off)%Z false = off.

(** The instant at which the local day of [tv] starts, at the offset
    [off]. *)
Definition localMidnight (off tv : Z) : Z :=
  (Date.Day (tv + off) * Date.msPerDay - off)%Z.

(** The local offset is [off] at the two instants through which
    [eventDate] moves a date from [t0] for the minutes [m]. *)
Definition covered (h : Host) (off t0 : Z) (m : float) : Prop :=
  match Number.truncZ (Math.floor m),
        Number.truncZ ((m - Math.floor m) * 60)%float with
  | Some a, Some b =>
      offsetAt h off (t0 + a * 60000)%Z
      /\ offsetAt h off (t0 + a * 60000 + b * 1000)%Z
  | _, _ => True
  end.

(** [tv] is exactly [m] minutes after [t0]. *)
Definition minutesAfter (t0 : Z) (m : float) (tv : Z) : Prop :=
  exists q, Number.toQ m = Some q /\ (inject_Z (tv - t0) == q * 60000)%Q.

(** What holds of a constructed instance. *)
Definition constructed (c : Completion SunCalc) (P : SunCalc -> Prop) : Prop :=
  match c with
  | Normal s => P s
  | Throw _ => False
  end.

(* ================================================================== *)
(** ** Concrete inputs *)

Module Examples.

(** A host on UTC and a host one hour east of it. *)
Definition utc : Host := refHost 0 0.
Definition cet : Host := refHost 60 0.

(** A host on Central European time, for the instants of 2024: one hour
    east of UTC until 2024-03-31T01:00:00Z, two hours until
    2024-10-27T01:00:00Z, one hour from then on.  A local time that the
    change of March skips (02:00 to 03:00) or the change of October repeats
    (02:00 to 03:00) is read with the offset in force before the change. *)
Definition cest : Host :=
  {| LocalTZA := fun tv isUTC =>
       (if isUTC
        then if tv <? 1711846800000 then 3600000
             else if tv <? 1729990800000 then 7200000 else 3600000
        else if tv <? 1711854000000 then 3600000
             else if tv <? 1729998000000 then 7200000 else 3600000)%Z;
     clock := 0;
     sin_impl := RefMath.sin;
     cos_impl := RefMath.cos;
     tan_impl := RefMath.tan;
     acos_impl := RefMath.acos;
     atan2_impl := RefMath.atan2 |}.

(** A scope that declares [newDate] and [currentDate], and one that does
    not. *)
Definition declared : Globals := {| newDate := Bound EmptyString; currentDate := Bound EmptyString |}.
Definition undeclared : Globals := {| newDate := Unresolvable; currentDate := Unresolvable |}.

(** 2024-03-20T12:00:00.000Z and instants after it. *)
Definition noon20 : Z := 1710936000000.
Definition noon20plus1s : Z := 1710936001000.
Definition noon20plus500ms : Z := 1710936000500.
(** 2024-03-21T00:00:05.000Z and 2024-03-21T00:00:06.000Z. *)
Definition after_midnight : Z := 1710979205000.
Definition after_midnight_1s : Z := 1710979206000.
(** 2021-03-20T12:00:00.000Z and 2022-03-20T12:00:00.000Z. *)
Definition noon2021 : Z := 1616241600000.
Definition noon2022 : Z := 1647777600000.
(** +010000-01-01T00:00:00.000Z and 30 seconds later. *)
Definition year10000 : Z := 253402300800000.
Definition year10000plus30s : Z := 253402300830000.
(** 2024-03-20T00:00:00.000Z. *)
Definition midnight20 : Z := 1710892800000.
(** 2024-03-31T12:00:00.000Z, and 2024-03-30T23:00:00.000Z, which is the
    midnight of 2024-03-31 on Central European time. *)
Definition noon31 : Z := 1711886400000.
Definition midnight31 : Z := 1711839600000.
(** 2024-03-19T23:00:00.000Z, which is the midnight of 2024-03-20 on
    Central European time. *)
Definition midnight20cet : Z := 1710889200000.
(** 0050-06-01T12:00:00.000Z, the midnight before it, and
    1950-06-01T00:00:00.000Z. *)
Definition noon0050 : Z := -60576206400000.
Definition midnight0050 : Z := -60576249600000.
Definition midnight1950 : Z := -618105600000.

(** Latitude 45, longitude 0, altitude 0. *)
Definition here : Coordinates := V3 (Vec3.mk 45 0 0).
Definition here2 : Coordinates := V2 (Vec2.mk 45 0).
(** Latitude 80. *)
Definition polar : Coordinates := V3 (Vec3.mk 80 0 0).
(** Latitude 45, altitude 100 m. *)
Definition hill : Coordinates := V3 (Vec3.mk 45 0 100).
(** A latitude at which, at noon of 2024-03-20, the tangent in the
    refraction term is within 2e-7 of zero, and two latitudes next to it. *)
Definition unlucky : Coordinates := V3 (Vec3.mk 46.940933 0 0).
Definition nearby : Coordinates := V3 (Vec3.mk 46.94 0 0).
Definition nearby2 : Coordinates := V3 (Vec3.mk 46.941 0 0).


(** Instances built at those places and instants. *)
Definition equinox : SunCalc := construct utc here (Some noon20) None.
Definition glare : SunCalc := construct utc unlucky (Some noon20) None.
Definition spring2021 : SunCalc := construct utc here (Some noon2021) None.
Definition farFuture : SunCalc := construct utc here (Some year10000) None.
Definition east : SunCalc := construct utc here (Some noon20) (Some 60%float).
Definition uphill : SunCalc := construct utc hill (Some noon20) None.
Definition changeover : SunCalc := construct cest here (Some noon31) None.
Definition central : SunCalc := construct cest here (Some noon20) None.

End Examples.

(* ================================================================== *)
(** ** Vocabulary of the further properties *)

(** The time values a Date object can hold. *)
Definition validTime (tv : Z) : Prop := (Z.abs tv <= 8640000000000000)%Z.

(** The stored position is the one the instantaneous calculator gives for
    the stored instant, location and timezone. *)
Definition positionFresh (h : Host) (s : SunCalc) : Prop :=
  getSunPosition s = getSunPosition (_updateDynamic_ h s).

(** The ten stored events are the ones the daily calculator gives for the
    stored instant and location. *)
Definition eventsFresh (h : Host) (s : SunCalc) : Prop :=
  events s = events (_updateStatic_ h s).

(** [_latitude_trig_] holds the sine, cosine and tangent of the stored
    latitude. *)
Definition trigFresh (h : Host) (s : SunCalc) : Prop :=
  _latitude_trig_ s = latitudeTrig h (_latitude_ s).

(** The instances a program can hold: built by the constructor, then moved
    by [setLocation] and [setDateTime] with any arguments, in any scope,
    the date arguments being Date objects. *)
Inductive Reachable (h : Host) : SunCalc -> Prop :=
| reach_new coordinates date timezone s :
    match date with Some (Some tv) => validTime tv | _ => True end ->
    validTime (clock h) ->
    constructor h coordinates date timezone = Normal s ->
    Reachable h s
| reach_setLocation s coordinates timezone :
    Reachable h s ->
    Reachable h (fst (setLocation h s coordinates timezone))
| reach_setDateTime s g date :
    Reachable h s ->
    match date with Some tv => validTime tv | None => True end ->
    Reachable h (this (setDateTime h g s date)).

(** A scope lacks the binding. *)
Definition unresolvable (b : Binding) : bool :=
  match b with Unresolvable => true | Bound _ => false end.

(** A stored date moved by [n] whole minutes. *)
Definition moved (d : Date.t) (n : Z) : Date.t :=
  Date.bindO d (fun tv => Date.TimeClip (tv + n * 60000)%Z).

(** The offset an accessor works with is the whole number [n] of minutes:
    given as the argument, or stored and the argument omitted ([-0] is
    what the constructor stores on a host on UTC). *)
Definition wholeOffset (s : SunCalc) (timezone : option float) (n : Z) : Prop :=
  timezone = Some (Number.ofZ n)
  \/ (timezone = None
      /\ (_timezone_ s = Number.ofZ n \/ (_timezone_ s = (-0)%float /\ n = 0%Z))).

(** A date that falls on a whole second of local time, or is invalid. *)
Definition wholeSecond (off : Z) (d : Date.t) : Prop :=
  match d with
  | Some tv => ((tv + off) mod 1000 = 0)%Z
  | None => True
  end.

Definition eventList (e : Events) : list Date.t :=
  [_sunrise_ e; _sunset_ e; _solar_noon_ e; _solar_midnight_ e;
   _civil_dawn_ e; _civil_dusk_ e; _nautical_dawn_ e; _nautical_dusk_ e;
   _astronomical_dawn_ e; _astronomical_dusk_ e].

(** The minutes of an hour, the whole offsets of up to a day and their
    sums, and the check that the number arithmetic of the accessors is
    exact for an offset [f] of [n] minutes: [f] is finite and its own
    floor, and a minute plus [f] is the number of their sum. *)
Definition minuteValues : list Z := map Z.of_nat (seq 0 60).
Definition offsetValues : list Z := map (fun i => (Z.of_nat i - 1440)%Z) (seq 0 2881).
Definition sumValues : list Z := map (fun i => (Z.of_nat i - 1440)%Z) (seq 0 2941).

Definition offsetExact (f : float) (n : Z) : bool :=
  is_finite f && PrimFloat.Leibniz.eqb (Math.floor f) f
  && forallb (fun m =>
       PrimFloat.Leibniz.eqb (Number.ofZ m + f)%float (Number.ofZ (m + n)))
       minuteValues.

(* ================================================================== *)
(** ** The example script *)

(** [time_of_day_change.js]: the three sliders, and what the script reads
    from the scene: [WEMath.smoothStep] and [engine.timeOfDay]. *)
Record ScriptProperties := {
  latitude : float;
  longitude : float;
  altitude : float
}.

Record Scene := {
  smoothStep : float -> float -> float -> float;
  timeOfDay : float
}.

Definition BLEND_DURATION : float := 5.

(** [init()]: the value it assigns to [sun]. *)
Definition init (h : Host) (scriptProperties : ScriptProperties) : Completion SunCalc :=
  constructor h
    (V3 (Vec3.mk (latitude scriptProperties) (longitude scriptProperties)
                 (altitude scriptProperties)))
    None None.

(** What a call of [update()] leaves: the bindings, [sun], and the value it
    returns or the exception it throws. *)
Record Frame := {
  frame_globals : Globals;
  frame_sun : SunCalc;
  frame_result : Completion float
}.

(** [update()], [sun] being the instance [init()] built. *)
Definition update (h : Host) (scene : Scene) (scriptProperties : ScriptProperties)
    (g : Globals) (sun : SunCalc) : Frame :=
  let now := Date.now h in
  let sun :=
    fst (setLocation h sun
           (V3 (Vec3.mk (latitude scriptProperties) (longitude scriptProperties)
                        (altitude scriptProperties)))
           None) in
  let r := setDateTime h g sun now in
  match thrown r with
  | Some e => Build_Frame (globals r) (this r) (Throw e)
  | None =>
      let sun := this r in
      let startOfDay :=
        Date.ofComponents h (Date.getFullYear h now) (Date.getMonth h now)
          (Date.getDate h now) 0 0 0 in
      let sunrise :=
        ((Date.valueOf (getSunrise h sun None) - Date.valueOf startOfDay) / 8.64e7)%float in
      let sunset :=
        ((Date.valueOf (getSunset h sun None) - Date.valueOf startOfDay) / 8.64e7)%float in
      Build_Frame (globals r) sun
        (Normal (smoothStep scene (sunrise - BLEND_DURATION / 1440) sunrise (timeOfDay scene)
                 * smoothStep scene sunset (sunset + BLEND_DURATION / 1440) (timeOfDay scene))%float)
  end.

(** The same host with the clock at another instant. *)
Definition atTime (h : Host) (now : Z) : Host :=
  {| LocalTZA := LocalTZA h; clock := now;
     sin_impl := sin_impl h; cos_impl := cos_impl h; tan_impl := tan_impl h;
     acos_impl := acos_impl h; atan2_impl := atan2_impl h |}.

(** Inputs for the example script: the sliders at latitude 45, and a scene
    with the usual cubic [smoothStep], at noon. *)
Module ScriptExamples.

Definition sliders : ScriptProperties :=
  {| latitude := 45; longitude := 0; altitude := 0 |}.

Definition cubic (lo hi x : float) : float :=
  (let t := (x - lo) / (hi - lo) in
   let t := if t <? 0 then 0 else if 1 <? t then 1 else t in
   t * t * (3 - 2 * t))%float.

Definition midday : Scene := {| smoothStep := cubic; timeOfDay := 0.5 |}.

(** The UTC host with its clock at 2024-03-20T12:00:00Z. *)
Definition utcNoon : Host := atTime Examples.utc Examples.noon20.

End ScriptExamples.

(* ================================================================== *)
(** * Properties *)

(** ** Facts about dates *)

Module DateFacts.
Import Date.
Open Scope Z_scope.

Ltac euclid := Z.to_euclidean_division_equations; lia.

Lemma DayFromYear_step y : DayFromYear (y + 1) = DayFromYear y + DaysInYear y.
Proof.
  unfold DayFromYear, DaysInYear.
  replace (y + 1 - 1969) with (y - 1968) by lia.
  replace (y + 1 - 1901) with (y - 1900) by lia.
  replace (y + 1 - 1601) with (y - 1600) by lia.
  destruct (y mod 4 =? 0) eqn:E4; destruct (y mod 100 =? 0) eqn:E100;
    destruct (y mod 400 =? 0) eqn:E400; cbn [andb orb negb];
    rewrite ?Z.eqb_eq, ?Z.eqb_neq in *; euclid.
Qed.

Lemma YearFromDay_spec d :
  DayFromYear (YearFromDay d) <= d < DayFromYear (YearFromDay d + 1).
Proof.
  unfold YearFromDay.
  set (y := 1970 + d * 400 / 146097).
  assert (Hy : 146097 * (y - 1970) <= d * 400 < 146097 * (y - 1970) + 146097)
    by (unfold y; euclid).
  clearbody y.
  destruct (d <? DayFromYear y) eqn:E1.
  - rewrite Z.ltb_lt in E1. replace (y - 1 + 1) with y by lia. split; [|lia].
    unfold DayFromYear in *. euclid.
  - rewrite Z.ltb_ge in E1.
    destruct (DayFromYear (y + 1) <=? d) eqn:E2.
    + rewrite Z.leb_le in E2. split; [lia|]. unfold DayFromYear in *. euclid.
    + rewrite Z.leb_gt in E2. lia.
Qed.

Lemma DaysInYear_cases y : DaysInYear y = 365 \/ DaysInYear y = 366.
Proof. unfold DaysInYear. destruct (_ && _); auto. Qed.

Lemma DayWithinYear_range tv :
  0 <= DayWithinYear tv < DaysInYear (YearFromTime tv).
Proof.
  unfold DayWithinYear, YearFromTime.
  pose proof (YearFromDay_spec (Day tv)) as H.
  rewrite DayFromYear_step in H. lia.
Qed.

Lemma MonthFromDay_range leap d : 0 <= MonthFromDay leap d <= 11.
Proof.
  unfold MonthFromDay.
  repeat match goal with |- context [if ?b then _ else _] => destruct b end; lia.
Qed.

Lemma MonthFromTime_range tv : 0 <= MonthFromTime tv <= 11.
Proof. apply MonthFromDay_range. Qed.

Lemma DateFromDay_range leap d :
  0 <= leap <= 1 -> 0 <= d < 365 + leap ->
  1 <= d - monthStart leap (MonthFromDay leap d) + 1 <= 31.
Proof.
  intros Hl Hd. unfold MonthFromDay.
  repeat match goal with
         | |- context [if ?a <? ?b then _ else _] =>
             destruct (Z.ltb_spec a b); [cbn [monthStart]; lia|]
         end.
  cbn [monthStart]; lia.
Qed.

Lemma InLeapYear_range tv : 0 <= InLeapYear tv <= 1.
Proof.
  unfold InLeapYear. destruct (DaysInYear_cases (YearFromTime tv)); lia.
Qed.

Lemma DateFromTime_range tv : 1 <= DateFromTime tv <= 31.
Proof.
  unfold DateFromTime, MonthFromTime.
  apply DateFromDay_range; [apply InLeapYear_range|].
  pose proof (DayWithinYear_range tv). unfold InLeapYear. lia.
Qed.

Lemma MakeDay_fields tv :
  MakeDay (YearFromTime tv) (MonthFromTime tv) (DateFromTime tv) = Day tv.
Proof.
  unfold MakeDay.
  pose proof (MonthFromTime_range tv) as Hm.
  rewrite Z.div_small, Z.mod_small, Z.add_0_r by lia.
  unfold DateFromTime, DayWithinYear, InLeapYear. lia.
Qed.

Lemma MakeTime_fields tv :
  MakeTime (HourFromTime tv) (MinFromTime tv) (SecFromTime tv) (msFromTime tv)
  = TimeWithinDay tv.
Proof.
  unfold MakeTime, HourFromTime, MinFromTime, SecFromTime, msFromTime,
    TimeWithinDay, msPerHour, msPerMinute, msPerSecond, msPerDay. euclid.
Qed.

Lemma MakeDate_fields tv : MakeDate (Day tv) (TimeWithinDay tv) = tv.
Proof. unfold MakeDate, Day, TimeWithinDay, msPerDay. euclid. Qed.

Lemma time_fields_range tv :
  0 <= HourFromTime tv <= 23 /\ 0 <= MinFromTime tv <= 59
  /\ 0 <= SecFromTime tv <= 59 /\ 0 <= msFromTime tv <= 999.
Proof.
  unfold HourFromTime, MinFromTime, SecFromTime, msFromTime, msPerSecond. euclid.
Qed.

(** Whole seconds since the epoch, from the fields the string shows. *)
Lemma seconds_fields tv :
  tv / 1000 = Day tv * 86400 + HourFromTime tv * 3600 + MinFromTime tv * 60
              + SecFromTime tv.
Proof.
  unfold Day, HourFromTime, MinFromTime, SecFromTime, msPerDay, msPerHour,
    msPerMinute, msPerSecond. euclid.
Qed.

Lemma fields_of_seconds t1 t2 :
  t1 / 1000 = t2 / 1000 ->
  Day t1 = Day t2 /\ HourFromTime t1 = HourFromTime t2
  /\ MinFromTime t1 = MinFromTime t2 /\ SecFromTime t1 = SecFromTime t2.
Proof.
  unfold Day, HourFromTime, MinFromTime, SecFromTime, msPerDay, msPerHour,
    msPerMinute, msPerSecond. intros H. euclid.
Qed.


(** *** Digits and strings *)

Lemma nat_of_digit k : 0 <= k <= 9 -> nat_of_ascii (digit k) = (48 + Z.to_nat k)%nat.
Proof. intros H. unfold digit. apply nat_ascii_embedding. lia. Qed.

Lemma digit_inj a b : 0 <= a <= 9 -> 0 <= b <= 9 -> digit a = digit b -> a = b.
Proof.
  intros Ha Hb E. apply (f_equal nat_of_ascii) in E.
  rewrite !nat_of_digit in E by assumption. lia.
Qed.

Lemma digitVal_digit k : 0 <= k <= 9 -> digitVal (digit k) = Some k.
Proof.
  intros H. unfold digitVal. rewrite nat_of_digit by assumption.
  replace (Z.of_nat (48 + Z.to_nat k) - 48) with k by lia.
  destruct (Z.leb_spec 0 k); [|lia]. destruct (Z.leb_spec k 9); [|lia]. reflexivity.
Qed.

Lemma digit_of_mod n : 0 <= n mod 10 <= 9.
Proof. euclid. Qed.

Lemma readNum_pad2 n acc rest :
  0 <= n <= 99 -> readNum 2 acc (pad2 n rest) = Some (100 * acc + n, rest).
Proof.
  intros H. unfold pad2. cbn [readNum].
  rewrite !digitVal_digit by apply digit_of_mod.
  f_equal. f_equal. euclid.
Qed.

Lemma readNum_pad3 n acc rest :
  0 <= n <= 999 -> readNum 3 acc (pad3 n rest) = Some (1000 * acc + n, rest).
Proof.
  intros H. unfold pad3, pad2. cbn [readNum].
  rewrite !digitVal_digit by apply digit_of_mod.
  f_equal. f_equal. euclid.
Qed.

Lemma readNum_pad4 n acc rest :
  0 <= n <= 9999 -> readNum 4 acc (pad4 n rest) = Some (10000 * acc + n, rest).
Proof.
  intros H. unfold pad4, pad3, pad2. cbn [readNum].
  rewrite !digitVal_digit by apply digit_of_mod.
  f_equal. f_equal. euclid.
Qed.

Lemma digit_not_sign k : 0 <= k <= 9 -> digit k <> "+"%char /\ digit k <> "-"%char.
Proof.
  intros H; split; intros E; apply (f_equal nat_of_ascii) in E;
    rewrite nat_of_digit in E by assumption; cbn in E; lia.
Qed.

Lemma readYear_pad4 y rest :
  0 <= y <= 9999 -> readYear (pad4 y rest) = Some (y, rest).
Proof.
  intros H. unfold readYear.
  pose proof (readNum_pad4 y 0 rest H) as R. rewrite Z.mul_0_r, Z.add_0_l in R.
  unfold pad4 in *.
  destruct (digit_not_sign (y / 1000 mod 10) (digit_of_mod _)) as [Hp Hm].
  destruct (digit (y / 1000 mod 10)) as [[] [] [] [] [] [] [] []]; try exact R;
    congruence.
Qed.

Lemma yearString_four tv rest :
  fourDigitYear tv -> yearString (YearFromTime tv) rest = pad4 (YearFromTime tv) rest.
Proof.
  intros [H0 H1]. unfold yearString.
  destruct (Z.leb_spec 0 (YearFromTime tv)); [|lia].
  destruct (Z.leb_spec (YearFromTime tv) 9999); [|lia]. reflexivity.
Qed.

Lemma parseTime_isoOfTime tv : fourDigitYear tv -> parseTime (isoOfTime tv) = Some tv.
Proof.
  intros Hy. unfold parseTime, isoOfTime.
  pose proof (MonthFromTime_range tv) as Hm.
  pose proof (DateFromTime_range tv) as Hd.
  pose proof (time_fields_range tv) as (Hh & Hmi & Hs & Hms).
  rewrite yearString_four by assumption.
  rewrite readYear_pad4 by exact Hy. cbn [bindO expect Ascii.eqb Bool.eqb].
  rewrite readNum_pad2 by lia. cbn [bindO expect Ascii.eqb Bool.eqb].
  rewrite readNum_pad2 by lia. cbn [bindO expect Ascii.eqb Bool.eqb].
  rewrite readNum_pad2 by lia. cbn [bindO expect Ascii.eqb Bool.eqb].
  rewrite readNum_pad2 by lia. cbn [bindO expect Ascii.eqb Bool.eqb].
  rewrite readNum_pad2 by lia. cbn [bindO].
  rewrite readNum_pad3 by lia. cbn [bindO].
  rewrite !Z.mul_0_r, !Z.add_0_l.
  replace (String.eqb "Z" "Z") with true by reflexivity.
  repeat match goal with
         | |- context [?a <=? ?b] => destruct (Z.leb_spec a b); [|lia]
         end.
  cbn [andb]. replace (MonthFromTime tv + 1 - 1) with (MonthFromTime tv) by lia.
  rewrite MakeDay_fields, MakeTime_fields, MakeDate_fields. reflexivity.
Qed.


Lemma fourDigitYear_range tv :
  fourDigitYear tv -> -62167219200000 <= tv < 253402300800000.
Proof.
  unfold fourDigitYear, YearFromTime. intros Hy.
  pose proof (YearFromDay_spec (Day tv)) as H.
  set (y := YearFromDay (Day tv)) in *. clearbody y.
  unfold DayFromYear, Day, msPerDay in *. euclid.
Qed.

Lemma ofString_isoOfTime tv : fourDigitYear tv -> ofString (isoOfTime tv) = Some tv.
Proof.
  intros Hy. unfold ofString. rewrite parseTime_isoOfTime by assumption.
  cbn [bindO]. unfold TimeClip.
  pose proof (fourDigitYear_range tv Hy).
  destruct (Z.leb_spec (Z.abs tv) 8640000000000000); [reflexivity|lia].
Qed.

(** The first 19 characters of the string are the date and the time to the
    second; the first 10 are the date. *)
Lemma prefix19_fields tv :
  fourDigitYear tv ->
  substring 0 19 (isoOfTime tv) =
  pad4 (YearFromTime tv) (String "-" (pad2 (MonthFromTime tv + 1)
    (String "-" (pad2 (DateFromTime tv) (String "T" (pad2 (HourFromTime tv)
    (String ":" (pad2 (MinFromTime tv) (String ":" (pad2 (SecFromTime tv) EmptyString)))))))))).
Proof.
  intros Hy. unfold isoOfTime. rewrite yearString_four by assumption. reflexivity.
Qed.

Lemma prefix10_fields tv :
  fourDigitYear tv ->
  substring 0 10 (isoOfTime tv) =
  pad4 (YearFromTime tv) (String "-" (pad2 (MonthFromTime tv + 1)
    (String "-" (pad2 (DateFromTime tv) EmptyString)))).
Proof.
  intros Hy. unfold isoOfTime. rewrite yearString_four by assumption. reflexivity.
Qed.

Lemma String_tail_inj c s1 s2 : String c s1 = String c s2 -> s1 = s2.
Proof. intros E. injection E as E. exact E. Qed.

Lemma pad2_inj a b r1 r2 :
  0 <= a <= 99 -> 0 <= b <= 99 -> pad2 a r1 = pad2 b r2 -> a = b /\ r1 = r2.
Proof.
  unfold pad2. intros Ha Hb E. injection E as E1 E2 E3.
  apply digit_inj in E1; try apply digit_of_mod.
  apply digit_inj in E2; try apply digit_of_mod.
  split; [euclid|assumption].
Qed.

Lemma pad4_inj a b r1 r2 :
  0 <= a <= 9999 -> 0 <= b <= 9999 -> pad4 a r1 = pad4 b r2 -> a = b /\ r1 = r2.
Proof.
  unfold pad4, pad3, pad2. intros Ha Hb E. injection E as E1 E2 E3 E4 E5.
  apply digit_inj in E1; try apply digit_of_mod.
  apply digit_inj in E2; try apply digit_of_mod.
  apply digit_inj in E3; try apply digit_of_mod.
  apply digit_inj in E4; try apply digit_of_mod.
  split; [euclid|assumption].
Qed.

Lemma date_fields_inj t1 t2 :
  YearFromTime t1 = YearFromTime t2 -> MonthFromTime t1 = MonthFromTime t2 ->
  DateFromTime t1 = DateFromTime t2 -> Day t1 = Day t2.
Proof.
  intros Ey Em Ed. rewrite <- (MakeDay_fields t1), <- (MakeDay_fields t2).
  congruence.
Qed.

Lemma date_fields_of_Day t1 t2 :
  Day t1 = Day t2 ->
  YearFromTime t1 = YearFromTime t2 /\ MonthFromTime t1 = MonthFromTime t2
  /\ DateFromTime t1 = DateFromTime t2.
Proof.
  intros E. unfold DateFromTime, MonthFromTime, InLeapYear, DayWithinYear, YearFromTime.
  rewrite E. auto.
Qed.

(** Two instants of four-digit years have the same first 10 characters
    exactly when they fall on the same UTC day. *)
Lemma prefix10_same_day t1 t2 :
  fourDigitYear t1 -> fourDigitYear t2 ->
  (substring 0 10 (isoOfTime t1) = substring 0 10 (isoOfTime t2) <-> Day t1 = Day t2).
Proof.
  intros H1 H2. rewrite !prefix10_fields by assumption.
  pose proof (MonthFromTime_range t1). pose proof (MonthFromTime_range t2).
  pose proof (DateFromTime_range t1). pose proof (DateFromTime_range t2).
  split.
  - intros E.
    apply pad4_inj in E as [Ey E]; [|exact H1|exact H2].
    apply String_tail_inj in E. apply pad2_inj in E as [Em E]; [|lia|lia].
    apply String_tail_inj in E. apply pad2_inj in E as [Ed _]; [|lia|lia].
    apply date_fields_inj; lia.
  - intros E. apply date_fields_of_Day in E as (-> & -> & ->). reflexivity.
Qed.

(** ... and the same first 19 characters exactly when they fall in the same
    second. *)
Lemma prefix19_same_second t1 t2 :
  fourDigitYear t1 -> fourDigitYear t2 ->
  (substring 0 19 (isoOfTime t1) = substring 0 19 (isoOfTime t2)
   <-> t1 / 1000 = t2 / 1000).
Proof.
  intros H1 H2. rewrite !prefix19_fields by assumption.
  pose proof (MonthFromTime_range t1). pose proof (MonthFromTime_range t2).
  pose proof (DateFromTime_range t1). pose proof (DateFromTime_range t2).
  pose proof (time_fields_range t1) as (? & ? & ? & _).
  pose proof (time_fields_range t2) as (? & ? & ? & _).
  split.
  - intros E.
    apply pad4_inj in E as [Ey E]; [|exact H1|exact H2].
    apply String_tail_inj in E. apply pad2_inj in E as [Em E]; [|lia|lia].
    apply String_tail_inj in E. apply pad2_inj in E as [Ed E]; [|lia|lia].
    apply String_tail_inj in E. apply pad2_inj in E as [Eh E]; [|lia|lia].
    apply String_tail_inj in E. apply pad2_inj in E as [Emi E]; [|lia|lia].
    apply String_tail_inj in E. apply pad2_inj in E as [Es _]; [|lia|lia].
    rewrite (seconds_fields t1), (seconds_fields t2).
    rewrite (date_fields_inj t1 t2) by lia. lia.
  - intros E. apply fields_of_seconds in E as (Ed & -> & -> & ->).
    apply date_fields_of_Day in Ed as (-> & -> & ->). reflexivity.
Qed.

End DateFacts.

(* ================================================================== *)
(** ** Facts about numbers *)

Module NumberFacts.
Open Scope float_scope.


Lemma sub_nan_l x : nan - x = nan.
Proof. apply Prim2SF_inj. rewrite FloatAxioms.sub_spec. reflexivity. Qed.

Lemma sub_nan_r x : x - nan = nan.
Proof.
  apply Prim2SF_inj. rewrite FloatAxioms.sub_spec.
  change (Prim2SF nan) with S754_nan. destruct (Prim2SF x); reflexivity.
Qed.

Lemma add_nan_l x : nan + x = nan.
Proof. apply Prim2SF_inj. rewrite FloatAxioms.add_spec. reflexivity. Qed.

Lemma div_nan_r x : x / nan = nan.
Proof.
  apply Prim2SF_inj. rewrite FloatAxioms.div_spec.
  change (Prim2SF nan) with S754_nan. destruct (Prim2SF x); reflexivity.
Qed.

Lemma is_nan_eq x : is_nan x = true -> x = nan.
Proof.
  unfold is_nan. rewrite FloatAxioms.eqb_spec. intros H.
  apply Prim2SF_inj. change (Prim2SF nan) with S754_nan.
  destruct (Prim2SF x) as [s|s| |s m e]; [destruct s; discriminate H
    |destruct s; discriminate H|reflexivity|].
  unfold SFeqb, SFcompare in H. rewrite Z.compare_refl, Pos.compare_cont_refl in H.
  destruct s; discriminate H.
Qed.

End NumberFacts.

(* ================================================================== *)
(** ** The location *)

Section Location.
Variable h : Host.
Open Scope float_scope.

Lemma updateStatic_frame s :
  let s' := _updateStatic_ h s in
  _latitude_ s' = _latitude_ s /\ _longitude_ s' = _longitude_ s
  /\ _altitude_ s' = _altitude_ s /\ _timezone_ s' = _timezone_ s
  /\ _date_ s' = _date_ s /\ _last_date_ s' = _last_date_ s
  /\ _sun_elevation_ s' = _sun_elevation_ s /\ _sun_azimuth_ s' = _sun_azimuth_ s
  /\ _latitude_trig_ s' = _latitude_trig_ s.
Proof. cbn. repeat split. Qed.

Lemma updateDynamic_frame s :
  let s' := _updateDynamic_ h s in
  _latitude_ s' = _latitude_ s /\ _longitude_ s' = _longitude_ s
  /\ _altitude_ s' = _altitude_ s /\ _timezone_ s' = _timezone_ s
  /\ _date_ s' = _date_ s /\ _last_date_ s' = _last_date_ s
  /\ events s' = events s /\ _latitude_trig_ s' = _latitude_trig_ s.
Proof. cbn. repeat split. Qed.

Lemma setLocation_snd s c tz :
  snd (setLocation h s c tz)
  = Coord.setXY c (Coord.x c * 0.01745329) (Coord.y c * 0.01745329).
Proof.
  unfold setLocation.
  destruct (locationChanged s _ (locationTimezone s tz)); reflexivity.
Qed.

Lemma setLocation_fst s c tz :
  let c1 := Coord.setXY c (Coord.x c * 0.01745329) (Coord.y c * 0.01745329) in
  fst (setLocation h s c tz)
  = if locationChanged s c1 (locationTimezone s tz)
    then _updateDynamic_ h (_updateStatic_ h
           (with_location s (Coord.x c1) (Coord.y c1)
              (if Coord.hasOwnZ c1 then Coord.z c1 else 0)
              (locationTimezone s tz) (latitudeTrig h (Coord.x c1))))
    else s.
Proof.
  cbv zeta. unfold setLocation.
  destruct (locationChanged s _ (locationTimezone s tz)); reflexivity.
Qed.

(** C9.  Every call of [setLocation] writes the converted values back into
    the caller's coordinates object: its [x] and [y] come out multiplied by
    0.01745329 and its [z] is left alone, whether or not the call changes
    the instance (when the test fails the instance is returned as it was).
    Passing the object that one call returned to a second call multiplies
    its [x] and [y] once more. *)
Theorem setLocation_rescales_argument (s s' : SunCalc) (c : Coordinates)
    (tz tz' : option float) :
  let r := setLocation h s c tz in
  let r' := setLocation h s' (snd r) tz' in
  snd r = Coord.setXY c (Coord.x c * 0.01745329) (Coord.y c * 0.01745329)
  /\ Coord.z (snd r) = Coord.z c
  /\ (locationChanged s (snd r) (locationTimezone s tz) = true \/ fst r = s)
  /\ Coord.x (snd r') = Coord.x c * 0.01745329 * 0.01745329
  /\ Coord.y (snd r') = Coord.y c * 0.01745329 * 0.01745329.
Proof.
  cbv zeta. rewrite !setLocation_snd, setLocation_fst. cbv zeta.
  repeat split; try (destruct c; reflexivity).
  destruct (locationChanged s _ (locationTimezone s tz)); [left|right]; reflexivity.
Qed.

Lemma gt_abs_nan_sub x bound : Number.gt (Math.abs (nan - x)) bound = false.
Proof.
  rewrite NumberFacts.sub_nan_l. unfold Number.gt, Math.abs.
  rewrite FloatAxioms.ltb_spec.
  change (Prim2SF (abs nan)) with S754_nan.
  destruct (Prim2SF bound); reflexivity.
Qed.

(** C10.  When the coordinates object is a [Vec2], the altitude test of
    [setLocation] compares NaN with 0.01 and is false whatever the stored
    altitude: the call recomputes exactly when the latitude, the longitude
    or the timezone test holds, and then the stored altitude becomes 0;
    otherwise the instance is left as it was. *)
Theorem setLocation_Vec2_altitude (s : SunCalc) (v : Vec2.t) (tz : option float) :
  let r := setLocation h s (V2 v) tz in
  let timezone := locationTimezone s tz in
  let others :=
    Number.gt (Math.abs (Coord.x (snd r) - _latitude_ s)) 1e-8
    || Number.gt (Math.abs (Coord.y (snd r) - _longitude_ s)) 1e-8
    || Number.ne (_timezone_ s) timezone in
  Number.gt (Math.abs (Coord.z (snd r) - _altitude_ s)) 1e-2 = false
  /\ locationChanged s (snd r) timezone = others
  /\ (if others then _altitude_ (fst r) = 0 else fst r = s).
Proof.
  cbv zeta. rewrite setLocation_snd, setLocation_fst. cbv zeta.
  set (c1 := Coord.setXY (V2 v) _ _).
  assert (Ez : Number.gt (Math.abs (Coord.z c1 - _altitude_ s)) 1e-2 = false)
    by apply gt_abs_nan_sub.
  assert (Ec : locationChanged s c1 (locationTimezone s tz) =
               Number.gt (Math.abs (Coord.x c1 - _latitude_ s)) 1e-8
               || Number.gt (Math.abs (Coord.y c1 - _longitude_ s)) 1e-8
               || Number.ne (_timezone_ s) (locationTimezone s tz)).
  { unfold locationChanged. rewrite Ez, orb_false_r. reflexivity. }
  split; [exact Ez|]. split; [exact Ec|].
  rewrite Ec.
  destruct (Number.gt (Math.abs (Coord.x c1 - _latitude_ s)) 1e-8
            || Number.gt (Math.abs (Coord.y c1 - _longitude_ s)) 1e-8
            || Number.ne (_timezone_ s) (locationTimezone s tz)); reflexivity.
Qed.

(** C8, as the class has it.  [getCoordinates] returns the altitude it was
    given (0 for a [Vec2]), and for the latitude and the longitude the
    input multiplied by 0.01745329 and then by 57.2957795, after the
    constructor and after a [setLocation] that passes its test. *)
Theorem getCoordinates_scaled_twice (s : SunCalc) (c : Coordinates)
    (date : option Z) (tz : option float) :
  let back (c : Coordinates) :=
    Vec3.mk (Coord.x c * 0.01745329 * 57.2957795)
            (Coord.y c * 0.01745329 * 57.2957795)
            (if Coord.hasOwnZ c then Coord.z c else 0) in
  let r := setLocation h s c tz in
  constructed (constructor h c (option_map Some date) tz)
    (fun s0 => getCoordinates s0 = back c)
  /\ getCoordinates (fst r) =
     if locationChanged s (snd r) (locationTimezone s tz) then back c
     else getCoordinates s.
Proof.
  cbv zeta. split.
  - unfold constructor. destruct date as [tv|]; reflexivity.
  - rewrite setLocation_snd, setLocation_fst. cbv zeta.
    destruct (locationChanged s _ (locationTimezone s tz)); [|reflexivity].
    destruct c; reflexivity.
Qed.

End Location.

(* ================================================================== *)
(** ** The daily calculator *)

Section Daily.
Variable h : Host.
Open Scope float_scope.







End Daily.

Module DailyExamples.
Import Examples.
Open Scope float_scope.

(** The instance built at latitude 45, longitude 0, on a UTC host, for
    2024-03-20T12:00:00Z: sunrise 06:01:56Z, solar noon 12:07:37Z, sunset
    18:13:18Z, solar midnight 00:07:37Z of the 21st; the sun at azimuth
    177.25 and elevation 45.007. *)
Example equinox_day :
  getSunrise utc equinox None = Some 1710914516000%Z
  /\ getSolarNoon utc equinox None = Some 1710936457000%Z
  /\ getSunset utc equinox None = Some 1710958398000%Z
  /\ getSolarMidnight utc equinox None = Some 1710979657000%Z
  /\ getSunPosition equinox = Vec2.mk 177.25139719668232 45.006530640785876.
Proof. vm_compute. repeat split. Qed.



End DailyExamples.

(* ================================================================== *)
(** ** The instantaneous calculator *)

Section Instantaneous.
Variable h : Host.
Open Scope float_scope.

(** The elevation the calculator stores is NaN whenever the zenith angle
    it computes is. *)
Lemma elevation_of_nan_zenith (s : SunCalc) :
  is_nan (zenithAngle h s) = true ->
  Vec2.y (getSunPosition (_updateDynamic_ h s)) = nan.
Proof.
  intros E. apply NumberFacts.is_nan_eq in E.
  change (Vec2.y (getSunPosition (_updateDynamic_ h s)))
    with (90 - zenithAngle h s + refractionOf h (zenithAngle h s)
          + 2.076e-4 * _altitude_ s).
  rewrite E. change (90 - nan) with nan.
  rewrite !NumberFacts.add_nan_l. reflexivity.
Qed.

End Instantaneous.

Module InstantaneousExamples.
Import Examples.
Open Scope float_scope.

(** C5 at three latitudes next to each other, longitude 0, at noon UTC of
    2024-03-20.  The sun is 43 degrees above the horizon: [z], the zenith
    angle in degrees that the calculator computes, is between 46.9 and 47.
    The calculator passes [z + 10.3 / (z + 5.11)], a number of degrees, to
    [Math.tan] and adds -0.0167 over the result to the elevation, with no
    guard.  At latitude 46.940933 the tangent is within 2e-7 of zero and
    [getSunPosition] returns an elevation above 90000 degrees; at latitude
    46.94 the term is above 17 degrees and the elevation above 61; at
    latitude 46.941 the term is below -251 degrees and the elevation below
    -208, the sun being above the horizon. *)
Theorem glare_elevation_unbounded :
  constructed (constructor utc unlucky (Some (Some noon20)) None)
    (fun s => (46.9 <? zenithAngle utc s) = true
              /\ (zenithAngle utc s <? 47) = true
              /\ (90000 <? refractionOf utc (zenithAngle utc s)) = true
              /\ (90000 <? Vec2.y (getSunPosition s)) = true)
  /\
  constructed (constructor utc nearby (Some (Some noon20)) None)
    (fun s => (46.9 <? zenithAngle utc s) = true
              /\ (zenithAngle utc s <? 47) = true
              /\ (17 <? refractionOf utc (zenithAngle utc s)) = true
              /\ (61 <? Vec2.y (getSunPosition s)) = true)
  /\
  constructed (constructor utc nearby2 (Some (Some noon20)) None)
    (fun s => (46.9 <? zenithAngle utc s) = true
              /\ (zenithAngle utc s <? 47) = true
              /\ (refractionOf utc (zenithAngle utc s) <? -251) = true
              /\ (Vec2.y (getSunPosition s) <? -208) = true).
Proof. vm_compute. repeat split. Qed.

End InstantaneousExamples.

(* ================================================================== *)
(** ** The timezone argument *)

Section Timezone.
Variable h : Host.
Open Scope float_scope.

Lemma construct_timezone_supplied c d t :
  Number.truthy t = true -> getTimezone (construct h c d (Some t)) = Math.floor t.
Proof. intros H. unfold construct. cbn. rewrite H. reflexivity. Qed.

Lemma construct_timezone_omitted c d :
  getTimezone (construct h c d None) = - Date.getTimezoneOffset h d.
Proof. reflexivity. Qed.

Lemma construct_timezone_falsy c d t :
  Number.truthy t = false ->
  getTimezone (construct h c d (Some t)) = - Date.getTimezoneOffset h d.
Proof. intros H. unfold construct. cbn. rewrite H. reflexivity. Qed.

End Timezone.

Module LocationExamples.
Import Examples.
Open Scope float_scope.

(** C6 at a supplied offset of 0.  On a host one hour east of UTC,
    [new SunCalc(coordinates, date, 0)] stores 60, the host's offset, and
    not the 0 it was given. *)
Theorem constructor_zero_timezone_replaced :
  constructed (constructor cet here (Some (Some noon20)) (Some 0))
    (fun s => getTimezone s = 60).
Proof. vm_compute. reflexivity. Qed.

(** An offset other than 0 is stored, rounded down. *)
Example constructor_timezone_120 :
  constructed (constructor cet here (Some (Some noon20)) (Some 120.5))
    (fun s => getTimezone s = 120).
Proof. vm_compute. reflexivity. Qed.

(** C2 at a supplied timezone of 0.  The instance holds timezone 60;
    [setLocation] with the same place and timezone 0 leaves it as it was,
    timezone included, where timezone 120 is stored. *)
Theorem setLocation_zero_timezone_ignored :
  fst (setLocation utc east here (Some 0)) = east
  /\ getTimezone (fst (setLocation utc east here (Some 0))) = 60
  /\ getTimezone (fst (setLocation utc east here (Some 120))) = 120.
Proof. vm_compute. repeat split. Qed.

(** The same call with a [Vec2] on an instance whose altitude is 100 m:
    nothing changes, where the same place as a [Vec3] with altitude 0 is
    stored. *)
Example setLocation_Vec2_keeps_altitude :
  fst (setLocation utc uphill here2 None) = uphill
  /\ Vec3.z (getCoordinates (fst (setLocation utc uphill here None))) = 0.
Proof. vm_compute. repeat split. Qed.

(** The latitude threshold: 1e-9 rad away changes nothing, 1e-7 rad away
    recomputes. *)
Example setLocation_latitude_threshold :
  let near := V3 (Vec3.mk 45.0000000573 0 0) in
  let far := V3 (Vec3.mk 45.0000057296 0 0) in
  fst (setLocation utc equinox near None) = equinox
  /\ locationChanged equinox (snd (setLocation utc equinox far None))
       (locationTimezone equinox None) = true
  /\ (_latitude_ equinox <? _latitude_ (fst (setLocation utc equinox far None))) = true.
Proof. vm_compute. repeat split. Qed.

(** C8 at latitude 45: [getCoordinates] does not return 45. *)
Lemma getCoordinates_not_identity :
  constructed (constructor utc here (Some (Some noon20)) None)
    (fun s => getCoordinates s <> Vec3.mk 45 0 0).
Proof.
  vm_compute. intros E.
  apply (f_equal (fun v => Vec3.x v =? 45)) in E. vm_compute in E. discriminate E.
Qed.

End LocationExamples.

(* ================================================================== *)
(** ** The reference instant *)

Section Instant.
Variable h : Host.

(** Without a binding for [newDate] the first statement throws and nothing
    changes. *)
Lemma setDateTime_undeclared g s tv :
  newDate g = Unresolvable ->
  setDateTime h g s (Some tv) = Build_Outcome g s (Some ReferenceError).
Proof. intros H. unfold setDateTime. cbn. rewrite H. reflexivity. Qed.

(** An invalid date throws a RangeError and nothing changes. *)
Lemma setDateTime_invalid g s :
  setDateTime h g s None = Build_Outcome g s (Some RangeError).
Proof. reflexivity. Qed.

(** The body of [setDateTime] once both assignments have gone through. *)
Lemma setDateTime_declared g s nb cb tv0 tv :
  newDate g = Bound nb -> currentDate g = Bound cb -> _date_ s = Some tv0 ->
  let nd := Date.isoOfTime tv in
  let cd := Date.isoOfTime tv0 in
  let g' := {| newDate := Bound nd; currentDate := Bound cd |} in
  setDateTime h g s (Some tv) =
  if negb (String.eqb (substring 0 19 cd) (substring 0 19 nd)) then
    let s1 := _updateDynamic_ h (with_date s (Date.ofString nd)) in
    if negb (String.eqb (substring 0 10 cd) (substring 0 10 (_last_date_ s1))) then
      match Date.toISOString (Date.ofString cd) with
      | Throw e => Build_Outcome g' s1 (Some e)
      | Normal l => Build_Outcome g' (_updateStatic_ h (with_last_date s1 l)) None
      end
    else Build_Outcome g' s1 None
  else Build_Outcome g' s None.
Proof.
  intros Hn Hc Hd. destruct g as [n c]. cbn in Hn, Hc. subst n c.
  unfold setDateTime. rewrite Hd. reflexivity.
Qed.

(** The daily fields are rewritten only when the day of the instant stored
    before the call differs from the day of [_last_date_]; the day of the
    new instant plays no part. *)
Lemma setDateTime_keeps_events g s nb cb tv0 tv :
  newDate g = Bound nb -> currentDate g = Bound cb -> _date_ s = Some tv0 ->
  substring 0 10 (Date.isoOfTime tv0) = substring 0 10 (_last_date_ s) ->
  events (this (setDateTime h g s (Some tv))) = events s.
Proof.
  intros Hn Hc Hd Hl.
  rewrite (setDateTime_declared g s nb cb tv0 tv Hn Hc Hd). cbv zeta.
  destruct (negb (String.eqb (substring 0 19 _) (substring 0 19 _))); [|reflexivity].
  change (_last_date_ (_updateDynamic_ h (with_date s (Date.ofString (Date.isoOfTime tv)))))
    with (_last_date_ s).
  rewrite Hl, String.eqb_refl. reflexivity.
Qed.

(** A call that crosses a day boundary is not the one that refreshes the
    daily fields: when [_last_date_] is on the day of the stored instant
    (as it is after any earlier call on that day that changed the second),
    a call with an instant of another day stores that instant and leaves
    the ten event fields as they were. *)
Lemma day_crossing_not_detected g s nb cb tl tv0 tv :
  newDate g = Bound nb -> currentDate g = Bound cb -> _date_ s = Some tv0 ->
  _last_date_ s = Date.isoOfTime tl ->
  fourDigitYear tl -> fourDigitYear tv0 -> fourDigitYear tv ->
  Date.Day tl = Date.Day tv0 -> Date.Day tv <> Date.Day tv0 ->
  let r := setDateTime h g s (Some tv) in
  thrown r = None /\ _date_ (this r) = Some tv /\ events (this r) = events s.
Proof.
  intros Hn Hc Hd Hl Yl Y0 Y1 Esame Ediff. cbv zeta.
  assert (Hp : substring 0 10 (Date.isoOfTime tv0) = substring 0 10 (_last_date_ s)).
  { rewrite Hl. apply DateFacts.prefix10_same_day; auto. }
  split; [|split; [|exact (setDateTime_keeps_events g s nb cb tv0 tv Hn Hc Hd Hp)]];
    rewrite (setDateTime_declared g s nb cb tv0 tv Hn Hc Hd); cbv zeta;
    rewrite !DateFacts.ofString_isoOfTime by assumption;
    change (_last_date_ (_updateDynamic_ h (with_date s (Some tv)))) with (_last_date_ s);
    rewrite Hp, String.eqb_refl; cbn [negb];
    (destruct (String.eqb_spec (substring 0 19 (Date.isoOfTime tv0))
                               (substring 0 19 (Date.isoOfTime tv))) as [E|E];
     cbn [negb]; [|reflexivity]).
  - reflexivity.
  - exfalso. apply Ediff.
    apply (DateFacts.prefix19_same_second tv0 tv Y0 Y1) in E.
    destruct (DateFacts.fields_of_seconds tv0 tv E) as [Ed _]. symmetry. exact Ed.
Qed.

(** C3, as the class has it.  In a scope that declares [newDate] and
    [currentDate], for a stored instant and a new instant [d] that are
    valid and in the years 0 to 9999: the call throws nothing; if [d] falls
    in the same second as the stored instant the instance is left as it
    was; otherwise the stored instant becomes [d] and the stored position
    is the one the instantaneous calculator computes for [d]. *)
Theorem setDateTime_second_granularity (g : Globals) (s : SunCalc)
    (nb cb : string) (tv0 tv : Z) :
  newDate g = Bound nb -> currentDate g = Bound cb -> _date_ s = Some tv0 ->
  fourDigitYear tv0 -> fourDigitYear tv ->
  let r := setDateTime h g s (Some tv) in
  thrown r = None
  /\ ((tv / 1000 = tv0 / 1000)%Z -> this r = s)
  /\ ((tv / 1000 <> tv0 / 1000)%Z ->
      _date_ (this r) = Some tv
      /\ getSunPosition (this r)
         = getSunPosition (_updateDynamic_ h (with_date s (Some tv)))).
Proof.
  intros Hn Hc Hd H0 H1. cbv zeta.
  rewrite (setDateTime_declared g s nb cb tv0 tv Hn Hc Hd). cbv zeta.
  rewrite !DateFacts.ofString_isoOfTime by assumption.
  pose proof (DateFacts.prefix19_same_second tv0 tv H0 H1) as P.
  destruct (String.eqb_spec (substring 0 19 (Date.isoOfTime tv0))
                            (substring 0 19 (Date.isoOfTime tv))) as [E|E];
    cbn [negb].
  - apply P in E. split; [reflexivity|]. split; [reflexivity|].
    intros N. exfalso. apply N. symmetry. exact E.
  - assert (N : (tv / 1000 <> tv0 / 1000)%Z) by (intros Q; apply E, P; congruence).
    destruct (negb (String.eqb _ _)); cbn [Date.toISOString thrown this];
      repeat split; try reflexivity; intros Q; contradiction.
Qed.

End Instant.

Module InstantExamples.
Import Examples.
Open Scope Z_scope.

Lemma setDateTime_second_granularity_witness :
  let r := setDateTime utc declared equinox (Some noon20plus1s) in
  newDate declared = Bound EmptyString /\ currentDate declared = Bound EmptyString
  /\ _date_ equinox = Some noon20
  /\ fourDigitYear noon20 /\ fourDigitYear noon20plus1s
  /\ thrown r = None
  /\ (noon20plus1s / 1000 = noon20 / 1000 -> this r = equinox)
  /\ (noon20plus1s / 1000 <> noon20 / 1000 ->
      _date_ (this r) = Some noon20plus1s
      /\ getSunPosition (this r)
         = getSunPosition (_updateDynamic_ utc (with_date equinox (Some noon20plus1s)))).
Proof.
  assert (Y0 : fourDigitYear noon20)
    by (unfold fourDigitYear; vm_compute; split; discriminate).
  assert (Y1 : fourDigitYear noon20plus1s)
    by (unfold fourDigitYear; vm_compute; split; discriminate).
  cbv zeta. do 3 (split; [reflexivity|]). split; [exact Y0|]. split; [exact Y1|].
  exact (setDateTime_second_granularity utc declared equinox EmptyString EmptyString noon20 noon20plus1s
           eq_refl eq_refl eq_refl Y0 Y1).
Defined.

(** Half a second later the call changes nothing. *)
Example setDateTime_same_second :
  this (setDateTime utc declared equinox (Some noon20plus500ms)) = equinox.
Proof. vm_compute. reflexivity. Qed.

(** C3 at two inputs.  One year after 2021-03-20T12:00:00Z the stored
    instant changes and the stored position is what it was.  From
    +010000-01-01T00:00:00Z, the instant 30 seconds later changes
    nothing. *)
Lemma second_boundary_counterexamples :
  (let r := setDateTime utc declared spring2021 (Some noon2022) in
   thrown r = None /\ _date_ spring2021 = Some noon2021
   /\ _date_ (this r) = Some noon2022
   /\ getSunPosition (this r) = getSunPosition spring2021)
  /\
  (let r := setDateTime utc declared farFuture (Some year10000plus30s) in
   thrown r = None /\ _date_ farFuture = Some year10000
   /\ year10000plus30s / 1000 <> year10000 / 1000
   /\ this r = farFuture).
Proof.
  split; vm_compute; repeat split; discriminate.
Qed.

(** In a scope that declares neither variable the call throws. *)
Example setDateTime_undeclared_throws :
  let r := setDateTime utc undeclared equinox (Some noon20plus1s) in
  thrown r = Some ReferenceError /\ this r = equinox.
Proof. vm_compute. split; reflexivity. Qed.

(** C1 across a midnight.  The instance is built at 2024-03-20T12:00:00Z
    and moved to 12:00:01, then to 2024-03-21T00:00:05Z.  After that call
    the stored instant is on the 21st and [getSunrise] still returns the
    sunrise of the 20th (06:01:56Z), not the one the daily calculator gives
    for the stored instant (2024-03-21T06:00:02Z), which only the next call,
    one second later, stores. *)
Theorem daily_cache_stale_after_midnight :
  let r1 := setDateTime utc declared equinox (Some noon20plus1s) in
  let r2 := setDateTime utc (globals r1) (this r1) (Some after_midnight) in
  let r3 := setDateTime utc (globals r2) (this r2) (Some after_midnight_1s) in
  thrown r1 = None /\ thrown r2 = None /\ thrown r3 = None
  /\ _date_ (this r2) = Some after_midnight
  /\ getSunrise utc (this r1) None = Some 1710914516000
  /\ getSunrise utc (this r2) None = Some 1710914516000
  /\ getSunrise utc (_updateStatic_ utc (this r2)) None = Some 1711000802000
  /\ getSunrise utc (this r3) None = Some 1711000802000.
Proof. vm_compute. repeat split. Qed.

End InstantExamples.

(* ================================================================== *)
(** ** The event timestamps *)

Section EventTimes.
Variable h : Host.
Variable off : Z.
Hypothesis fixed : fixedOffset h off.
Open Scope Z_scope.

Lemma LocalTime_fixed tv : Date.LocalTime h tv = tv + off.
Proof. unfold Date.LocalTime. rewrite fixed. reflexivity. Qed.

Lemma UTC_fixed tv : Date.UTC h tv = tv - off.
Proof. unfold Date.UTC. rewrite fixed. reflexivity. Qed.

(** On a local midnight, [setMinutes] adds whole minutes. *)
Lemma setMinutes_midnight t0 m a :
  (t0 + off) mod 86400000 = 0 -> Number.truncZ m = Some a ->
  Date.setMinutes h (Some t0) m = Date.TimeClip (t0 + a * 60000).
Proof.
  intros H0 Ha. unfold Date.setMinutes. rewrite Ha, LocalTime_fixed, UTC_fixed.
  f_equal.
  unfold Date.MakeDate, Date.MakeTime, Date.Day, Date.HourFromTime, Date.SecFromTime,
    Date.msFromTime, Date.msPerDay, Date.msPerHour, Date.msPerMinute, Date.msPerSecond.
  DateFacts.euclid.
Qed.

(** On a whole local minute, [setSeconds] adds whole seconds. *)
Lemma setSeconds_whole_minute t1 x b :
  (t1 + off) mod 60000 = 0 -> Number.truncZ x = Some b ->
  Date.setSeconds h (Some t1) x = Date.TimeClip (t1 + b * 1000).
Proof.
  intros H1 Hb. unfold Date.setSeconds. rewrite Hb, LocalTime_fixed, UTC_fixed.
  f_equal.
  unfold Date.MakeDate, Date.MakeTime, Date.Day, Date.HourFromTime, Date.MinFromTime,
    Date.msFromTime, Date.msPerDay, Date.msPerHour, Date.msPerMinute, Date.msPerSecond.
  DateFacts.euclid.
Qed.

Lemma eventDate_anchored t0 m :
  (t0 + off) mod 86400000 = 0 -> eventDate h (Some t0) m = anchored t0 m.
Proof.
  intros H0. unfold eventDate, anchored, Date.copy.
  destruct (Number.truncZ (Math.floor m)) as [a|] eqn:Ea.
  - rewrite (setMinutes_midnight t0 _ a H0 Ea).
    destruct (Number.truncZ ((m - Math.floor m) * 60)%float) as [b|] eqn:Eb.
    + unfold Date.TimeClip at 1 2.
      destruct (Z.abs (t0 + a * 60000) <=? 8640000000000000); [|reflexivity].
      cbn [Date.bindO]. apply setSeconds_whole_minute; [|exact Eb].
      DateFacts.euclid.
    + unfold Date.setSeconds. rewrite Eb.
      destruct (Date.TimeClip (t0 + a * 60000)); reflexivity.
  - unfold Date.setMinutes. rewrite Ea. reflexivity.
Qed.

(** The template is a local midnight. *)
Lemma time_template_midnight s t0 :
  time_template h s = Some t0 -> (t0 + off) mod 86400000 = 0.
Proof.
  unfold time_template, Date.ofComponents.
  destruct (Date.getFullYear h (_date_ s)) as [y|]; [|discriminate].
  destruct (Date.getMonth h (_date_ s)) as [mo|]; [|discriminate].
  destruct (Date.getDate h (_date_ s)) as [dt|]; [|discriminate].
  rewrite UTC_fixed. unfold Date.TimeClip.
  destruct (Z.abs _ <=? 8640000000000000); [|discriminate].
  intros E. injection E as <-.
  unfold Date.MakeDate, Date.MakeTime, Date.msPerDay.
  set (d := Date.MakeDay _ _ _). clearbody d. DateFacts.euclid.
Qed.

End EventTimes.

(** The same, on a host whose local offset may change: what matters is the
    offset at the instants the calculator passes through. *)
Section EventOffsets.
Variable h : Host.
Variable off : Z.
Open Scope Z_scope.

(** On a host whose offset never changes, it is the same at every
    instant. *)
Lemma fixedOffset_offsetAt x : fixedOffset h off -> offsetAt h off x.
Proof. intros F. split; apply F. Qed.

Lemma setMinutes_offsetAt t0 m a :
  (t0 + off) mod 86400000 = 0 -> Number.truncZ m = Some a ->
  offsetAt h off t0 -> offsetAt h off (t0 + a * 60000) ->
  Date.setMinutes h (Some t0) m = Date.TimeClip (t0 + a * 60000).
Proof.
  intros H0 Ha [I0 _] [_ I1]. unfold Date.setMinutes, Date.LocalTime.
  rewrite Ha, I0.
  replace (Date.MakeDate _ _) with (t0 + a * 60000 + off).
  - unfold Date.UTC. rewrite I1. f_equal. lia.
  - unfold Date.MakeDate, Date.MakeTime, Date.Day, Date.HourFromTime, Date.SecFromTime,
      Date.msFromTime, Date.msPerDay, Date.msPerHour, Date.msPerMinute, Date.msPerSecond.
    DateFacts.euclid.
Qed.

Lemma setSeconds_offsetAt t1 x b :
  (t1 + off) mod 60000 = 0 -> Number.truncZ x = Some b ->
  offsetAt h off t1 -> offsetAt h off (t1 + b * 1000) ->
  Date.setSeconds h (Some t1) x = Date.TimeClip (t1 + b * 1000).
Proof.
  intros H1 Hb [I1 _] [_ I2]. unfold Date.setSeconds, Date.LocalTime.
  rewrite Hb, I1.
  replace (Date.MakeDate _ _) with (t1 + b * 1000 + off).
  - unfold Date.UTC. rewrite I2. f_equal. lia.
  - unfold Date.MakeDate, Date.MakeTime, Date.Day, Date.HourFromTime, Date.MinFromTime,
      Date.msFromTime, Date.msPerDay, Date.msPerHour, Date.msPerMinute, Date.msPerSecond.
    DateFacts.euclid.
Qed.

Lemma eventDate_offsetAt t0 m :
  (t0 + off) mod 86400000 = 0 -> offsetAt h off t0 -> covered h off t0 m ->
  eventDate h (Some t0) m = anchored t0 m.
Proof.
  intros H0 I0. unfold covered, eventDate, anchored, Date.copy.
  destruct (Number.truncZ (Math.floor m)) as [a|] eqn:Ea.
  - destruct (Number.truncZ ((m - Math.floor m) * 60)%float) as [b|] eqn:Eb.
    + intros [I1 I2]. rewrite (setMinutes_offsetAt t0 _ a H0 Ea I0 I1).
      unfold Date.TimeClip at 1 2.
      destruct (Z.abs (t0 + a * 60000) <=? 8640000000000000); [|reflexivity].
      cbn [Date.bindO]. apply setSeconds_offsetAt; [|exact Eb|exact I1|exact I2].
      DateFacts.euclid.
    + intros _. unfold Date.setSeconds. rewrite Eb.
      destruct (Date.setMinutes h (Some t0) (Math.floor m)); reflexivity.
  - intros _. unfold Date.setMinutes. rewrite Ea. reflexivity.
Qed.

(** [localMidnight] is the start of the local day of [tv]. *)
Lemma localMidnight_spec tv :
  (localMidnight off tv + off) mod 86400000 = 0
  /\ localMidnight off tv <= tv < localMidnight off tv + 86400000.
Proof. unfold localMidnight, Date.Day, Date.msPerDay. DateFacts.euclid. Qed.

(** [new Date(getFullYear(), getMonth(), getDate())] is the start of the
    local day, when the local year is not one of 0 to 99. *)
Lemma time_template_offsetAt s tv :
  _date_ s = Some tv -> offsetAt h off tv ->
  ~ 0 <= Date.YearFromTime (tv + off) <= 99 ->
  offsetAt h off (localMidnight off tv) ->
  time_template h s = Date.TimeClip (localMidnight off tv).
Proof.
  intros Ed [It _] Hy [_ I0]. unfold time_template. rewrite Ed.
  unfold Date.getFullYear, Date.getMonth, Date.getDate, Date.LocalTime.
  cbn [option_map]. rewrite It.
  unfold Date.ofComponents.
  replace ((0 <=? Date.YearFromTime (tv + off)) && (Date.YearFromTime (tv + off) <=? 99))
    with false
    by (symmetry; apply andb_false_iff;
        destruct (Z.leb_spec 0 (Date.YearFromTime (tv + off))); [|left; reflexivity];
        destruct (Z.leb_spec (Date.YearFromTime (tv + off)) 99); [lia|right; reflexivity]).
  rewrite DateFacts.MakeDay_fields.
  replace (Date.MakeDate _ _) with (localMidnight off tv + off)
    by (unfold Date.MakeDate, Date.MakeTime, localMidnight; lia).
  unfold Date.UTC. rewrite I0. f_equal. lia.
Qed.

(** C7, as the class has it.  Let the reference date be the instant [tv],
    in a local year other than 0 to 99, and [t0] the local midnight of its
    day, a valid date, the local offset of the host being the same at [tv]
    and at [t0].  The daily calculator anchors the events on [t0], and each
    of the ten fields it stores is [t0] plus the whole minutes of [m] plus
    the whole seconds of the rest of [m] (an invalid date when [m] is not
    finite or the sum leaves the range of dates), as long as the offset is
    still the same at the two instants this passes through;
    [m = 720 - 4 * (longitude + H) - eqtime], [H] being the hour angle of
    the threshold for the dawns, its opposite for the dusks, 0 for the solar
    noon and -180 for the solar midnight. *)
Theorem events_anchored_to_local_midnight (s : SunCalc) (tv : Z) :
  _date_ s = Some tv ->
  offsetAt h off tv ->
  ~ 0 <= Date.YearFromTime (tv + off) <= 99 ->
  let t0 := localMidnight off tv in
  offsetAt h off t0 ->
  validTime t0 ->
  let m (H : float) :=
    (720 - 4 * (_longitude_ s * 57.2957795 + H) - eqtimeOf h (staticFractYear h s))%float in
  let e := events (_updateStatic_ h s) in
  let stored (d : Date.t) (H : float) :=
    covered h off t0 (m H) -> d = anchored t0 (m H) in
  ((t0 + off) mod 86400000 = 0 /\ t0 <= tv < t0 + 86400000)
  /\ time_template h s = Some t0
  /\ stored (_sunrise_ e) (hour_angle_h h s)
  /\ stored (_sunset_ e) (- hour_angle_h h s)%float
  /\ stored (_solar_noon_ e) 0%float
  /\ stored (_solar_midnight_ e) (-180)%float
  /\ stored (_civil_dawn_ e) (hour_angle_c h s)
  /\ stored (_civil_dusk_ e) (- hour_angle_c h s)%float
  /\ stored (_nautical_dawn_ e) (hour_angle_n h s)
  /\ stored (_nautical_dusk_ e) (- hour_angle_n h s)%float
  /\ stored (_astronomical_dawn_ e) (hour_angle_a h s)
  /\ stored (_astronomical_dusk_ e) (- hour_angle_a h s)%float.
Proof.
  intros Ed It Hy t0 I0 Hv.
  pose proof (localMidnight_spec tv) as [H0 Hday]. fold t0 in H0, Hday.
  assert (Ht : time_template h s = Some t0).
  { rewrite (time_template_offsetAt s tv Ed It Hy I0). fold t0.
    unfold Date.TimeClip. unfold validTime in Hv.
    destruct (Z.leb_spec (Z.abs t0) 8640000000000000); [reflexivity|lia]. }
  cbv zeta. split; [split; assumption|]. split; [exact Ht|].
  unfold _updateStatic_.
  cbn [events with_events _sunrise_ _sunset_ _solar_noon_ _solar_midnight_
       _civil_dawn_ _civil_dusk_ _nautical_dawn_ _nautical_dusk_
       _astronomical_dawn_ _astronomical_dusk_].
  rewrite Ht.
  repeat split; intros Hc; apply (eventDate_offsetAt t0 _ H0 I0 Hc).
Qed.

End EventOffsets.

Module EventTimesExamples.
Import Examples.
Open Scope Z_scope.

(** 2024-03-20 on Central European time, a host whose offset changes
    eleven days later: the sunrise is stored as 06:01:56 local time, which
    is 05:01:56Z. *)
Lemma events_anchored_witness :
  _date_ central = Some noon20
  /\ offsetAt cest 3600000 noon20
  /\ ~ 0 <= Date.YearFromTime (noon20 + 3600000) <= 99
  /\ localMidnight 3600000 noon20 = midnight20cet
  /\ offsetAt cest 3600000 midnight20cet
  /\ validTime midnight20cet
  /\ time_template cest central = Some midnight20cet
  /\ covered cest 3600000 midnight20cet
       (720 - 4 * (_longitude_ central * 57.2957795 + hour_angle_h cest central)
        - eqtimeOf cest (staticFractYear cest central))%float
  /\ _sunrise_ (events (_updateStatic_ cest central))
     = anchored midnight20cet
         (720 - 4 * (_longitude_ central * 57.2957795 + hour_angle_h cest central)
          - eqtimeOf cest (staticFractYear cest central))%float
  /\ anchored midnight20cet
         (720 - 4 * (_longitude_ central * 57.2957795 + hour_angle_h cest central)
          - eqtimeOf cest (staticFractYear cest central))%float
     = Some (midnight20cet + 361 * 60000 + 56 * 1000).
Proof.
  assert (I : offsetAt cest 3600000 noon20) by (vm_compute; split; reflexivity).
  assert (Y : ~ 0 <= Date.YearFromTime (noon20 + 3600000) <= 99)
    by (vm_compute; intros [_ H]; apply H; reflexivity).
  assert (I0 : offsetAt cest 3600000 midnight20cet) by (vm_compute; split; reflexivity).
  assert (V : validTime midnight20cet) by (vm_compute; discriminate).
  assert (C : covered cest 3600000 midnight20cet
       (720 - 4 * (_longitude_ central * 57.2957795 + hour_angle_h cest central)
        - eqtimeOf cest (staticFractYear cest central))%float)
    by (vm_compute; repeat split).
  split; [reflexivity|]. split; [exact I|]. split; [exact Y|].
  split; [reflexivity|]. split; [exact I0|]. split; [exact V|].
  pose proof (events_anchored_to_local_midnight cest 3600000 central noon20
                eq_refl I Y I0 V) as [_ [Ht [Hs _]]].
  split; [exact Ht|]. split; [exact C|]. split; [exact (Hs C)|].
  vm_compute; reflexivity.
Defined.

(** C7 at four inputs.  On 2024-03-20 at latitude 45, longitude 0, on a UTC
    host, [m] for the sunrise is 361.9336... and the stored sunrise is
    361 minutes and 56 seconds after midnight, which is not [m] minutes;
    the stored solar midnight is the one of hour angle -180
    (2024-03-21T00:07:37Z), a day after the one of hour angle 180.
    On 2024-03-31 on Central European time, the day the offset goes from
    one hour to two, the stored sunrise is an hour earlier than midnight
    plus the whole minutes and seconds of [m].  For the reference date
    0050-06-01T12:00:00Z the events are anchored on the midnight of
    1950-06-01, not on the one of the reference day. *)
Lemma event_times_counterexamples :
  constructed (constructor utc here (Some (Some noon20)) None)
    (fun s =>
       time_template utc s = Some midnight20
       /\ _sunrise_ (events s) = Some (midnight20 + 361 * 60000 + 56 * 1000)%Z
       /\ ~ minutesAfter midnight20 (computeTime utc s (hour_angle_h utc s))
              (midnight20 + 361 * 60000 + 56 * 1000)
       /\ _solar_midnight_ (events s) = Some (midnight20 + 1447 * 60000 + 37 * 1000)%Z
       /\ anchored midnight20 (computeTime utc s 180%float)
          = Some (midnight20 + 7 * 60000 + 37 * 1000)%Z)
  /\
  constructed (constructor cest here (Some (Some noon31)) None)
    (fun s =>
       _date_ s = Some noon31
       /\ localMidnight 3600000 noon31 = midnight31
       /\ LocalTZA cest midnight31 true = 3600000
       /\ LocalTZA cest noon31 true = 7200000
       /\ time_template cest s = Some midnight31
       /\ anchored midnight31 (computeTime cest s (hour_angle_h cest s))
          = Some (midnight31 + 341 * 60000 + 17 * 1000)%Z
       /\ _sunrise_ (events s) = Some (midnight31 + 281 * 60000 + 17 * 1000)%Z)
  /\
  constructed (constructor utc here (Some (Some noon0050)) None)
    (fun s =>
       _date_ s = Some noon0050
       /\ Date.YearFromTime noon0050 = 50
       /\ localMidnight 0 noon0050 = midnight0050
       /\ time_template utc s = Some midnight1950
       /\ anchored midnight0050 (computeTime utc s (hour_angle_h utc s))
          = Some (midnight0050 + 256 * 60000 + 13 * 1000)%Z
       /\ _sunrise_ (events s) = Some (midnight1950 + 256 * 60000 + 13 * 1000)%Z).
Proof.
  split; [|split].
  - vm_compute. do 2 (split; [reflexivity|]). split; [|split; reflexivity].
    intros [q [Hq E]]. injection Hq as <-. vm_compute in E. discriminate E.
  - vm_compute. repeat split.
  - vm_compute. repeat split.
Qed.

End EventTimesExamples.

(* ================================================================== *)
(** ** Further facts about dates *)

Module DateRoundTrip.
Import Date.
Open Scope Z_scope.

Lemma readNum_pad6 n acc rest :
  0 <= n <= 999999 -> readNum 6 acc (pad6 n rest) = Some (1000000 * acc + n, rest).
Proof.
  intros H. unfold pad6, pad4, pad3, pad2. cbn [readNum].
  rewrite !DateFacts.digitVal_digit by apply DateFacts.digit_of_mod.
  f_equal. f_equal. DateFacts.euclid.
Qed.

Lemma readYear_yearString y rest :
  -999999 <= y <= 999999 -> readYear (yearString y rest) = Some (y, rest).
Proof.
  intros H. unfold yearString.
  destruct (Z.leb_spec 0 y); cbn [andb].
  - destruct (Z.leb_spec y 9999).
    + apply DateFacts.readYear_pad4. lia.
    + destruct (Z.ltb_spec y 0); [lia|]. cbn [readYear].
      rewrite readNum_pad6 by lia. f_equal. f_equal. lia.
  - destruct (Z.ltb_spec y 0); [|lia]. cbn [readYear].
    rewrite readNum_pad6 by lia. f_equal. f_equal. lia.
Qed.

Lemma validTime_year tv :
  validTime tv -> -271821 <= YearFromTime tv <= 275760.
Proof.
  unfold validTime, YearFromTime. intros Hv.
  pose proof (DateFacts.YearFromDay_spec (Day tv)) as H.
  set (y := YearFromDay (Day tv)) in *. clearbody y.
  unfold DayFromYear, Day, msPerDay in *. DateFacts.euclid.
Qed.

Lemma parseTime_isoOfTime_valid tv : validTime tv -> parseTime (isoOfTime tv) = Some tv.
Proof.
  intros Hv. unfold parseTime, isoOfTime.
  pose proof (validTime_year tv Hv) as Hy.
  pose proof (DateFacts.MonthFromTime_range tv) as Hm.
  pose proof (DateFacts.DateFromTime_range tv) as Hd.
  pose proof (DateFacts.time_fields_range tv) as (Hh & Hmi & Hs & Hms).
  rewrite readYear_yearString by lia. cbn [bindO expect Ascii.eqb Bool.eqb].
  rewrite DateFacts.readNum_pad2 by lia. cbn [bindO expect Ascii.eqb Bool.eqb].
  rewrite DateFacts.readNum_pad2 by lia. cbn [bindO expect Ascii.eqb Bool.eqb].
  rewrite DateFacts.readNum_pad2 by lia. cbn [bindO expect Ascii.eqb Bool.eqb].
  rewrite DateFacts.readNum_pad2 by lia. cbn [bindO expect Ascii.eqb Bool.eqb].
  rewrite DateFacts.readNum_pad2 by lia. cbn [bindO].
  rewrite DateFacts.readNum_pad3 by lia. cbn [bindO].
  rewrite !Z.mul_0_r, !Z.add_0_l.
  replace (String.eqb "Z" "Z") with true by reflexivity.
  repeat match goal with
         | |- context [?a <=? ?b] => destruct (Z.leb_spec a b); [|lia]
         end.
  cbn [andb]. replace (MonthFromTime tv + 1 - 1) with (MonthFromTime tv) by lia.
  rewrite DateFacts.MakeDay_fields, DateFacts.MakeTime_fields, DateFacts.MakeDate_fields.
  reflexivity.
Qed.

(** A date read back from its own ISO string is the same instant. *)
Lemma ofString_isoOfTime_valid tv : validTime tv -> ofString (isoOfTime tv) = Some tv.
Proof.
  intros Hv. unfold ofString. rewrite parseTime_isoOfTime_valid by assumption.
  cbn [bindO]. unfold TimeClip. unfold validTime in Hv.
  destruct (Z.leb_spec (Z.abs tv) 8640000000000000); [reflexivity|lia].
Qed.

End DateRoundTrip.

(* ================================================================== *)
(** ** Further facts about numbers *)

Module NumberMore.
Open Scope float_scope.

(** A number minus itself is [+0], or NaN when it is NaN or infinite. *)
Lemma sub_diag x : x - x = 0 \/ x - x = nan.
Proof.
  assert (E : Prim2SF (x - x) = S754_zero false \/ Prim2SF (x - x) = S754_nan).
  { rewrite FloatAxioms.sub_spec. destruct (Prim2SF x) as [s|s| |s m e].
    - left. destruct s; reflexivity.
    - right. destruct s; reflexivity.
    - right. reflexivity.
    - left. unfold SF64sub, SFsub. rewrite Z.min_id, Z.sub_diag. reflexivity. }
  destruct E as [E|E]; [left|right]; apply Prim2SF_inj; rewrite E; reflexivity.
Qed.

Lemma gt_abs_sub_diag x :
  Number.gt (Math.abs (x - x)) 1e-8 = false
  /\ Number.gt (Math.abs (x - x)) 1e-2 = false.
Proof. destruct (sub_diag x) as [-> | ->]; split; reflexivity. Qed.

Lemma ne_refl x : is_nan x = false -> Number.ne x x = false.
Proof. unfold Number.ne, is_nan. intros H. destruct (x =? x); [reflexivity|discriminate]. Qed.

End NumberMore.

(* ================================================================== *)
(** ** Caches and their freshness *)

Section Freshness.
Variable h : Host.
Open Scope float_scope.

(** The two calculators read nothing of what they write, and write
    nothing else. *)
Lemma position_dynamic s : positionFresh h (_updateDynamic_ h s).
Proof. reflexivity. Qed.

Lemma position_static s : positionFresh h s -> positionFresh h (_updateStatic_ h s).
Proof. intros H. exact H. Qed.

Lemma position_last_date s l : positionFresh h s -> positionFresh h (with_last_date s l).
Proof. intros H. exact H. Qed.

Lemma events_static s : eventsFresh h (_updateStatic_ h s).
Proof. reflexivity. Qed.

Lemma events_dynamic s : eventsFresh h s -> eventsFresh h (_updateDynamic_ h s).
Proof. intros H. exact H. Qed.

Lemma trig_static s : trigFresh h s -> trigFresh h (_updateStatic_ h s).
Proof. intros H. exact H. Qed.

Lemma trig_dynamic s : trigFresh h s -> trigFresh h (_updateDynamic_ h s).
Proof. intros H. exact H. Qed.

Lemma date_calculators s : _date_ (_updateDynamic_ h (_updateStatic_ h s)) = _date_ s.
Proof. reflexivity. Qed.

(** The constructor ends with the two calculators, run on an instance
    that holds the date and the trigonometry of the latitude. *)
Lemma construct_shape c d tz :
  exists s0, construct h c d tz = _updateDynamic_ h (_updateStatic_ h s0)
             /\ _date_ s0 = d /\ trigFresh h s0.
Proof.
  unfold construct. eexists. split; [reflexivity|]. split; reflexivity.
Qed.

Lemma construct_fresh c d tz :
  let s := construct h c d tz in
  _date_ s = d /\ eventsFresh h s /\ positionFresh h s /\ trigFresh h s.
Proof.
  cbv zeta. destruct (construct_shape c d tz) as (s0 & -> & Hd & Ht).
  split; [rewrite date_calculators; exact Hd|].
  split; [apply events_dynamic, events_static|].
  split; [apply position_dynamic|].
  apply trig_dynamic, trig_static, Ht.
Qed.

Lemma constructor_valid c tv tz :
  validTime tv ->
  constructor h c (Some (Some tv)) tz = Normal (construct h c (Some tv) tz).
Proof.
  intros Hv. unfold constructor. cbn [Date.toISOString bindC].
  rewrite DateRoundTrip.ofString_isoOfTime_valid by assumption. reflexivity.
Qed.

(** X1.  The constructor stores exactly the instant of the Date it is
    given, and leaves the three caches fresh: the events and the position
    are those of the stored instant and location, and the latitude
    trigonometry is the one of the stored latitude. *)
Theorem constructor_keeps_instant (c : Coordinates) (tv : Z) (tz : option float) :
  validTime tv ->
  constructed (constructor h c (Some (Some tv)) tz)
    (fun s => _date_ s = Some tv /\ eventsFresh h s /\ positionFresh h s
              /\ trigFresh h s).
Proof.
  intros Hv. rewrite constructor_valid by assumption.
  cbn [constructed]. apply construct_fresh.
Qed.

(** X2.  On every instance a program can reach, the stored position is
    the one the instantaneous calculator gives for the stored state, the
    latitude trigonometry is the one of the stored latitude, and the
    stored instant is a valid date. *)
Theorem reachable_coherent (s : SunCalc) :
  Reachable h s ->
  positionFresh h s /\ trigFresh h s /\ exists tv, _date_ s = Some tv /\ validTime tv.
Proof.
  induction 1 as [c date tz s Hd Hc E | s c tz R IH | s g date R IH Hd].
  - assert (F : forall d tv, d = Some tv -> validTime tv ->
                let s := construct h c d tz in
                positionFresh h s /\ trigFresh h s
                /\ exists tv, _date_ s = Some tv /\ validTime tv).
    { intros d tv -> Hv. destruct (construct_fresh c (Some tv) tz) as (D & _ & P & T).
      split; [exact P|]. split; [exact T|]. exists tv. split; assumption. }
    unfold constructor in E. destruct date as [[tv|]|]; cbn [Date.toISOString bindC] in E.
    + rewrite DateRoundTrip.ofString_isoOfTime_valid in E by assumption.
      injection E as <-. exact (F _ tv eq_refl Hd).
    + discriminate E.
    + injection E as <-. exact (F _ (clock h) eq_refl Hc).
  - rewrite setLocation_fst. cbv zeta.
    destruct (locationChanged s _ (locationTimezone s tz)); [|exact IH].
    destruct IH as (_ & _ & tv & Hs & Hv).
    split; [apply position_dynamic|].
    split; [apply trig_dynamic, trig_static; reflexivity|].
    exists tv. split; [exact Hs|exact Hv].
  - destruct IH as (Hp & Ht & tv0 & Hs & Hv).
    assert (Keep : positionFresh h s /\ trigFresh h s
                   /\ exists tv, _date_ s = Some tv /\ validTime tv)
      by (split; [exact Hp|]; split; [exact Ht|]; exists tv0; split; assumption).
    unfold setDateTime. destruct date as [tv|]; cbn [Date.toISOString]; [|exact Keep].
    destruct (newDate g); cbn [assign]; [exact Keep|].
    rewrite Hs. cbn [Date.toISOString].
    destruct (currentDate g); cbn [assign currentDate]; [exact Keep|].
    destruct (negb (String.eqb _ _)); [|exact Keep].
    rewrite !DateRoundTrip.ofString_isoOfTime_valid by assumption.
    set (s1 := _updateDynamic_ h (with_date s (Some tv))).
    assert (P1 : positionFresh h s1) by apply position_dynamic.
    assert (T1 : trigFresh h s1) by (apply trig_dynamic; exact Ht).
    assert (D1 : _date_ s1 = Some tv) by reflexivity.
    clearbody s1.
    destruct (negb (String.eqb _ _)); cbn [Date.toISOString this].
    + split; [apply position_static, position_last_date, P1|].
      split; [apply trig_static; exact T1|].
      exists tv. split; [exact D1|assumption].
    + split; [exact P1|]. split; [exact T1|]. exists tv. split; [exact D1|assumption].
Qed.

(** After a call of [setLocation], the test of a further call with the
    same degrees and the same timezone argument fails. *)
Lemma setLocation_settled s c tz :
  is_nan (locationTimezone s tz) = false ->
  let s1 := fst (setLocation h s c tz) in
  let c1 := Coord.setXY c (Coord.x c * 0.01745329) (Coord.y c * 0.01745329) in
  locationChanged s1 c1 (locationTimezone s1 tz) = false.
Proof.
  intros Hn. cbv zeta. rewrite (setLocation_fst h s c tz). cbv zeta.
  set (c1 := Coord.setXY c _ _).
  destruct (locationChanged s c1 (locationTimezone s tz)) eqn:E; [|exact E].
  set (s1 := _updateDynamic_ h _).
  assert (T : locationTimezone s1 tz = locationTimezone s tz).
  { unfold locationTimezone at 1. change (_timezone_ s1) with (locationTimezone s tz).
    destruct tz as [t|]; [|reflexivity].
    unfold locationTimezone. destruct (Number.truthy t); reflexivity. }
  rewrite T. unfold locationChanged.
  change (_latitude_ s1) with (Coord.x c1).
  change (_longitude_ s1) with (Coord.y c1).
  change (_altitude_ s1) with (if Coord.hasOwnZ c1 then Coord.z c1 else 0).
  change (_timezone_ s1) with (locationTimezone s tz).
  destruct (NumberMore.gt_abs_sub_diag (Coord.x c1)) as [-> _].
  destruct (NumberMore.gt_abs_sub_diag (Coord.y c1)) as [-> _].
  rewrite (NumberMore.ne_refl _ Hn), !orb_false_l, orb_false_r.
  subst c1. destruct c as [v|v]; cbn [Coord.setXY Coord.hasOwnZ Coord.z].
  - apply gt_abs_nan_sub.
  - apply NumberMore.gt_abs_sub_diag.
Qed.

(** X3.  [setLocation] is idempotent: when the timezone in force is not
    NaN, a second call with the same degrees and the same timezone
    argument leaves the instance as the first call left it. *)
Theorem setLocation_twice (s : SunCalc) (c : Coordinates) (tz : option float) :
  is_nan (locationTimezone s tz) = false ->
  let s1 := fst (setLocation h s c tz) in
  fst (setLocation h s1 c tz) = s1.
Proof.
  intros Hn. cbv zeta.
  rewrite (setLocation_fst h (fst (setLocation h s c tz)) c tz). cbv zeta.
  rewrite (setLocation_settled s c tz Hn). reflexivity.
Qed.

(** X4.  [setLocation] keeps the events fresh: if the ten stored events are
    those of the stored instant and location before the call, they are
    after it, whether the call recomputes or not. *)
Theorem setLocation_keeps_events_fresh (s : SunCalc) (c : Coordinates)
    (tz : option float) :
  eventsFresh h s -> eventsFresh h (fst (setLocation h s c tz)).
Proof.
  intros H. rewrite setLocation_fst. cbv zeta.
  destruct (locationChanged s _ (locationTimezone s tz)); [|exact H].
  apply events_dynamic, events_static.
Qed.

(** X7.  [setDateTime] never writes the location: whatever the scope and
    the date, and whether it throws or not, latitude, longitude, altitude,
    timezone and latitude trigonometry are as before, and so are
    [getCoordinates] and [getTimezone].  [setLocation] never writes the
    stored instant nor [_last_date_]. *)
Theorem setters_frame (g : Globals) (s : SunCalc) (date : Date.t)
    (c : Coordinates) (tz : option float) :
  let s1 := this (setDateTime h g s date) in
  let s2 := fst (setLocation h s c tz) in
  getCoordinates s1 = getCoordinates s /\ getTimezone s1 = getTimezone s
  /\ _latitude_trig_ s1 = _latitude_trig_ s
  /\ _date_ s2 = _date_ s /\ _last_date_ s2 = _last_date_ s.
Proof.
  cbv zeta. rewrite setLocation_fst. cbv zeta.
  assert (L : forall b : bool, forall a : SunCalc,
             _date_ a = _date_ s -> _last_date_ a = _last_date_ s ->
             _date_ (if b then a else s) = _date_ s
             /\ _last_date_ (if b then a else s) = _last_date_ s)
    by (intros [] a Ha Hb; split; auto).
  assert (D : getCoordinates (this (setDateTime h g s date)) = getCoordinates s
              /\ getTimezone (this (setDateTime h g s date)) = getTimezone s
              /\ _latitude_trig_ (this (setDateTime h g s date)) = _latitude_trig_ s).
  { unfold setDateTime.
    destruct (Date.toISOString date); [|repeat split].
    destruct (assign (newDate g) a); [|repeat split].
    destruct (Date.toISOString (_date_ s)); [|repeat split].
    destruct (assign _ a1); [|repeat split].
    destruct (negb (String.eqb _ _)); [|repeat split].
    destruct (negb (String.eqb _ _)); [|repeat split].
    destruct (Date.toISOString _); repeat split. }
  destruct D as (D1 & D2 & D3).
  split; [exact D1|]. split; [exact D2|]. split; [exact D3|].
  apply L; reflexivity.
Qed.

End Freshness.

(* ================================================================== *)
(** ** More on the reference instant *)

Section InstantMore.
Variable h : Host.

Lemma declared_bound g :
  unresolvable (newDate g) || unresolvable (currentDate g) = false ->
  exists nb cb, newDate g = Bound nb /\ currentDate g = Bound cb.
Proof.
  destruct g as [[|nb] [|cb]]; cbn; intros E; try discriminate E.
  exists nb, cb. split; reflexivity.
Qed.

(** What a call in a scope with both bindings leaves, when the stored and
    the new instant are valid dates. *)
Lemma setDateTime_cases g s nb cb tv0 tv :
  newDate g = Bound nb -> currentDate g = Bound cb -> _date_ s = Some tv0 ->
  validTime tv0 -> validTime tv ->
  let nd := Date.isoOfTime tv in
  let cd := Date.isoOfTime tv0 in
  let g' := {| newDate := Bound nd; currentDate := Bound cd |} in
  let s1 := _updateDynamic_ h (with_date s (Some tv)) in
  setDateTime h g s (Some tv) =
  if String.eqb (substring 0 19 cd) (substring 0 19 nd) then Build_Outcome g' s None
  else if String.eqb (substring 0 10 cd) (substring 0 10 (_last_date_ s))
       then Build_Outcome g' s1 None
       else Build_Outcome g' (_updateStatic_ h (with_last_date s1 cd)) None.
Proof.
  intros Hn Hc Hd H0 H1. cbv zeta.
  rewrite (setDateTime_declared h g s nb cb tv0 tv Hn Hc Hd). cbv zeta.
  rewrite !DateRoundTrip.ofString_isoOfTime_valid by assumption.
  destruct (String.eqb (substring 0 19 _) (substring 0 19 _)); cbn [negb]; [reflexivity|].
  change (_last_date_ (_updateDynamic_ h (with_date s (Some tv)))) with (_last_date_ s).
  destruct (String.eqb (substring 0 10 _) (substring 0 10 _)); reflexivity.
Qed.

(** X5.  [setDateTime] is idempotent: in a scope with both bindings, with
    valid dates, neither the call nor its repetition with the same date
    throws, and the repetition leaves the instance as the call left it. *)
Theorem setDateTime_twice (g : Globals) (s : SunCalc) (nb cb : string) (tv0 tv : Z) :
  newDate g = Bound nb -> currentDate g = Bound cb -> _date_ s = Some tv0 ->
  validTime tv0 -> validTime tv ->
  let r1 := setDateTime h g s (Some tv) in
  let r2 := setDateTime h (globals r1) (this r1) (Some tv) in
  thrown r1 = None /\ thrown r2 = None /\ this r2 = this r1.
Proof.
  intros Hn Hc Hd H0 H1. cbv zeta.
  rewrite (setDateTime_cases g s nb cb tv0 tv Hn Hc Hd H0 H1). cbv zeta.
  set (nd := Date.isoOfTime tv). set (cd := Date.isoOfTime tv0).
  set (g' := {| newDate := Bound nd; currentDate := Bound cd |}).
  destruct (String.eqb (substring 0 19 cd) (substring 0 19 nd)) eqn:E19.
  - cbn [thrown this globals].
    rewrite (setDateTime_cases g' s nd cd tv0 tv eq_refl eq_refl Hd H0 H1). cbv zeta.
    fold nd cd. rewrite E19. repeat split.
  - set (s1 := _updateDynamic_ h (with_date s (Some tv))).
    assert (D1 : _date_ s1 = Some tv) by reflexivity. clearbody s1.
    assert (K : forall sA, _date_ sA = Some tv ->
                let r2 := setDateTime h g' sA (Some tv) in
                thrown r2 = None /\ this r2 = sA).
    { intros sA DA. cbv zeta.
      rewrite (setDateTime_cases g' sA nd cd tv tv eq_refl eq_refl DA H1 H1). cbv zeta.
      rewrite String.eqb_refl. split; reflexivity. }
    destruct (String.eqb (substring 0 10 cd) (substring 0 10 (_last_date_ s)));
      cbn [thrown this globals]; (split; [reflexivity|]); apply K; exact D1.
Qed.

(** X6.  In a scope with both bindings and with valid dates, a call
    rewrites the daily fields exactly when it changes the second and the
    instant stored before it is on another day than [_last_date_]: then
    the ten events are those of the new stored instant and [_last_date_]
    records the instant stored before the call; otherwise the events and
    [_last_date_] are as before.  So the first call after construction
    that changes the second refreshes them (unless the instance was built
    on 1970-01-01), and so does the call after one that crossed a day. *)
Theorem setDateTime_refreshes (g : Globals) (s : SunCalc) (nb cb : string)
    (tv0 tv : Z) :
  newDate g = Bound nb -> currentDate g = Bound cb -> _date_ s = Some tv0 ->
  validTime tv0 -> validTime tv ->
  let r := setDateTime h g s (Some tv) in
  let secondChanged :=
    negb (String.eqb (substring 0 19 (Date.isoOfTime tv0))
                     (substring 0 19 (Date.isoOfTime tv))) in
  let otherDay :=
    negb (String.eqb (substring 0 10 (Date.isoOfTime tv0))
                     (substring 0 10 (_last_date_ s))) in
  if secondChanged && otherDay
  then _date_ (this r) = Some tv /\ eventsFresh h (this r)
       /\ _last_date_ (this r) = Date.isoOfTime tv0
  else events (this r) = events s /\ _last_date_ (this r) = _last_date_ s.
Proof.
  intros Hn Hc Hd H0 H1. cbv zeta.
  rewrite (setDateTime_cases g s nb cb tv0 tv Hn Hc Hd H0 H1). cbv zeta.
  destruct (String.eqb (substring 0 19 _) (substring 0 19 _)); cbn [negb andb];
    [split; reflexivity|].
  destruct (String.eqb (substring 0 10 _) (substring 0 10 _)); cbn [negb this];
    [split; reflexivity|].
  split; [reflexivity|]. split; [apply events_static|reflexivity].
Qed.

(** X8.  When [setDateTime] throws, with a valid stored instant: a
    RangeError exactly when the date is invalid, whatever the scope; a
    ReferenceError exactly when the date is valid and the scope lacks
    [newDate] or [currentDate]; nothing otherwise.  When it throws the
    instance is left as it was. *)
Theorem setDateTime_throws (g : Globals) (s : SunCalc) (tv0 : Z) (date : Date.t) :
  _date_ s = Some tv0 -> validTime tv0 ->
  match date with Some tv => validTime tv | None => True end ->
  let r := setDateTime h g s date in
  thrown r =
    match date with
    | None => Some RangeError
    | Some _ =>
        if unresolvable (newDate g) || unresolvable (currentDate g)
        then Some ReferenceError else None
    end
  /\ (thrown r = None \/ this r = s).
Proof.
  intros Hd H0 H1. cbv zeta. destruct date as [tv|].
  - destruct (unresolvable (newDate g) || unresolvable (currentDate g)) eqn:U.
    + unfold setDateTime. cbn [Date.toISOString].
      destruct (newDate g) as [|nb]; cbn [assign];
        [split; [reflexivity|right; reflexivity]|].
      rewrite Hd. cbn [Date.toISOString].
      destruct (currentDate g) as [|cb]; cbn [assign currentDate unresolvable orb] in *;
        [split; [reflexivity|right; reflexivity]|discriminate U].
    + destruct (declared_bound g U) as (nb & cb & Hn & Hc).
      rewrite (setDateTime_cases g s nb cb tv0 tv Hn Hc Hd H0 H1). cbv zeta.
      destruct (String.eqb (substring 0 19 _) (substring 0 19 _));
        [split; [reflexivity|left; reflexivity]|].
      destruct (String.eqb (substring 0 10 _) (substring 0 10 _));
        split; try reflexivity; left; reflexivity.
  - split; [reflexivity|right; reflexivity].
Qed.

End InstantMore.

(* ================================================================== *)
(** ** The accessors *)

Module OffsetFacts.
Open Scope Z_scope.

(** The integer part of the number of an integer is that integer, on the
    sums of a minute and an offset. *)
Lemma integers_exact :
  forallb (fun k =>
    match Number.truncZ (Number.ofZ k) with
    | Some k' => (k' =? k)%Z
    | None => false
    end) sumValues = true.
Proof. vm_compute. reflexivity. Qed.

Lemma offsets_exact :
  forallb (fun n => offsetExact (Number.ofZ n) n) offsetValues = true.
Proof. vm_compute. reflexivity. Qed.

Lemma offsetExact_neg_zero : offsetExact (-0)%float 0 = true.
Proof. vm_compute. reflexivity. Qed.

Lemma in_minuteValues m : 0 <= m <= 59 -> In m minuteValues.
Proof.
  intros H. unfold minuteValues. apply in_map_iff. exists (Z.to_nat m).
  split; [lia|]. apply in_seq. lia.
Qed.

Lemma in_offsetValues n : -1440 <= n <= 1440 -> In n offsetValues.
Proof.
  intros H. unfold offsetValues. apply in_map_iff. exists (Z.to_nat (n + 1440)).
  split; [lia|]. apply in_seq. lia.
Qed.

Lemma in_sumValues k : -1440 <= k <= 1499 -> In k sumValues.
Proof.
  intros H. unfold sumValues. apply in_map_iff. exists (Z.to_nat (k + 1440)).
  split; [lia|]. apply in_seq. lia.
Qed.

Lemma truncZ_ofZ k : -1440 <= k <= 1499 -> Number.truncZ (Number.ofZ k) = Some k.
Proof.
  intros H. pose proof integers_exact as E. rewrite forallb_forall in E.
  specialize (E k (in_sumValues k H)). cbv beta in E.
  destruct (Number.truncZ (Number.ofZ k)) as [k'|]; [|discriminate E].
  apply Z.eqb_eq in E. congruence.
Qed.

(** What the check gives for one offset. *)
Lemma offsetExact_spec f n m :
  offsetExact f n = true -> 0 <= m <= 59 ->
  is_finite f = true /\ Math.floor f = f
  /\ (Number.ofZ m + f)%float = Number.ofZ (m + n).
Proof.
  unfold offsetExact. intros E Hm.
  apply andb_prop in E as [E Es]. apply andb_prop in E as [Ef El].
  rewrite forallb_forall in Es. specialize (Es m (in_minuteValues m Hm)).
  split; [exact Ef|]. split; apply FloatAxioms.Leibniz.eqb_spec; assumption.
Qed.

Lemma offsetExact_ofZ n : -1440 <= n <= 1440 -> offsetExact (Number.ofZ n) n = true.
Proof.
  intros H. pose proof offsets_exact as E.
  rewrite forallb_forall in E. exact (E n (in_offsetValues n H)).
Qed.

End OffsetFacts.

Section Accessors.
Variable h : Host.
Variable off : Z.
Hypothesis fixed : fixedOffset h off.
Open Scope Z_scope.

(** [setMinutes] moves a date by the difference between the new and the
    old minute. *)
Lemma setMinutes_fixed tv x k :
  Number.truncZ x = Some k ->
  Date.setMinutes h (Some tv) x
  = Date.TimeClip (tv + (k - Date.MinFromTime (tv + off)) * 60000).
Proof.
  intros Hk. unfold Date.setMinutes.
  rewrite Hk, (LocalTime_fixed h off fixed), (UTC_fixed h off fixed).
  f_equal.
  unfold Date.MakeDate, Date.MakeTime, Date.Day, Date.HourFromTime, Date.MinFromTime,
    Date.SecFromTime, Date.msFromTime, Date.msPerDay, Date.msPerHour,
    Date.msPerMinute, Date.msPerSecond.
  DateFacts.euclid.
Qed.

Lemma shifted_whole d f n :
  -1440 <= n <= 1440 -> offsetExact f n = true -> shifted h d f = moved d n.
Proof.
  intros Hn E. destruct d as [tv|]; [|reflexivity].
  unfold shifted, Date.copy, Date.getMinutes, moved.
  cbn [option_map Date.num Date.bindO].
  rewrite (LocalTime_fixed h off fixed).
  assert (Hm : 0 <= Date.MinFromTime (tv + off) <= 59)
    by (pose proof (DateFacts.time_fields_range (tv + off)); tauto).
  destruct (OffsetFacts.offsetExact_spec f n _ E Hm) as (_ & _ & ->).
  rewrite (setMinutes_fixed tv _ (Date.MinFromTime (tv + off) + n))
    by (apply OffsetFacts.truncZ_ofZ; lia).
  f_equal. lia.
Qed.

Lemma resolveTimezone_whole s timezone n :
  -1440 <= n <= 1440 -> wholeOffset s timezone n ->
  offsetExact (resolveTimezone s timezone) n = true.
Proof.
  intros Hn [-> | [-> [E | [E ->]]]]; cbn [resolveTimezone].
  - pose proof (OffsetFacts.offsetExact_ofZ n Hn) as X.
    assert (0 <= 0 <= 59) as Z0 by lia.
    destruct (OffsetFacts.offsetExact_spec _ n 0 X Z0) as (-> & -> & _). exact X.
  - rewrite E. apply OffsetFacts.offsetExact_ofZ, Hn.
  - rewrite E. apply OffsetFacts.offsetExact_neg_zero.
Qed.

(** X9.  On a host whose local offset does not change, an accessor that
    works with a whole offset of [n] minutes, at most a day either way,
    returns the stored date moved by exactly [n] minutes (an invalid date
    for an invalid stored date): [getDateTime] and the ten event
    accessors.  In particular an offset of 0 is honoured, and returns the
    stored date itself. *)
Theorem accessors_whole_offset (s : SunCalc) (timezone : option float) (n : Z) :
  -1440 <= n <= 1440 -> wholeOffset s timezone n ->
  getDateTime h s timezone = moved (_date_ s) n
  /\ getSunrise h s timezone = moved (_sunrise_ (events s)) n
  /\ getSunset h s timezone = moved (_sunset_ (events s)) n
  /\ getSolarNoon h s timezone = moved (_solar_noon_ (events s)) n
  /\ getSolarMidnight h s timezone = moved (_solar_midnight_ (events s)) n
  /\ getCivilDawn h s timezone = moved (_civil_dawn_ (events s)) n
  /\ getCivilDusk h s timezone = moved (_civil_dusk_ (events s)) n
  /\ getNauticalDawn h s timezone = moved (_nautical_dawn_ (events s)) n
  /\ getNauticalDusk h s timezone = moved (_nautical_dusk_ (events s)) n
  /\ getAstronomicalDawn h s timezone = moved (_astronomical_dawn_ (events s)) n
  /\ getAstronomicalDusk h s timezone = moved (_astronomical_dusk_ (events s)) n.
Proof.
  intros Hn W. pose proof (resolveTimezone_whole s timezone n Hn W) as E.
  unfold getDateTime, getSunrise, getSunset, getSolarNoon, getSolarMidnight,
    getCivilDawn, getCivilDusk, getNauticalDawn, getNauticalDusk,
    getAstronomicalDawn, getAstronomicalDusk.
  repeat split; apply shifted_whole; assumption.
Qed.

(** The accessors take NaN and the infinities as an omitted argument. *)
Lemma resolveTimezone_not_finite s t :
  is_finite t = false -> resolveTimezone s (Some t) = resolveTimezone s None.
Proof. intros E. cbn [resolveTimezone]. rewrite E. reflexivity. Qed.

Lemma eventDate_wholeSecond s m :
  wholeSecond off (eventDate h (time_template h s) m).
Proof.
  destruct (time_template h s) as [t0|] eqn:Et.
  - pose proof (time_template_midnight h off fixed s t0 Et) as H0.
    rewrite (eventDate_anchored h off fixed t0 m H0). unfold anchored.
    destruct (Number.truncZ (Math.floor m)) as [a|]; [|exact I].
    destruct (Number.truncZ _) as [b|]; [|exact I].
    unfold Date.TimeClip.
    destruct (Z.abs (t0 + a * 60000) <=? 8640000000000000); [|exact I].
    cbn [Date.bindO].
    destruct (Z.abs (t0 + a * 60000 + b * 1000) <=? 8640000000000000); [|exact I].
    cbn [wholeSecond]. DateFacts.euclid.
  - unfold eventDate, Date.copy, Date.setMinutes, Date.setSeconds. exact I.
Qed.

(** X10.  On a host whose local offset does not change, every event the
    daily calculator stores is an invalid date or falls on a whole second
    of local time: the fraction of a second of the computed time is never
    kept. *)
Theorem events_whole_seconds (s : SunCalc) :
  Forall (wholeSecond off) (eventList (events (_updateStatic_ h s))).
Proof.
  unfold _updateStatic_, eventList.
  cbn [events with_events _sunrise_ _sunset_ _solar_noon_ _solar_midnight_
       _civil_dawn_ _civil_dusk_ _nautical_dawn_ _nautical_dusk_
       _astronomical_dawn_ _astronomical_dusk_].
  repeat (apply Forall_cons; [apply eventDate_wholeSecond|]). apply Forall_nil.
Qed.

End Accessors.

(* ================================================================== *)
(** ** The example script *)

Module Script.

Lemma setLocation_date h s c tz : _date_ (fst (setLocation h s c tz)) = _date_ s.
Proof.
  rewrite setLocation_fst. cbv zeta.
  destruct (locationChanged s _ (locationTimezone s tz)); reflexivity.
Qed.

(** [setDateTime] leaves the four numbers of the location as they are. *)
Lemma setDateTime_location h g s date :
  let s1 := this (setDateTime h g s date) in
  _latitude_ s1 = _latitude_ s /\ _longitude_ s1 = _longitude_ s
  /\ _altitude_ s1 = _altitude_ s /\ _timezone_ s1 = _timezone_ s.
Proof.
  cbv zeta. unfold setDateTime.
  destruct (Date.toISOString date); [|repeat split].
  destruct (assign (newDate g) a); [|repeat split].
  destruct (Date.toISOString (_date_ s)); [|repeat split].
  destruct (assign _ a1); [|repeat split].
  destruct (negb (String.eqb _ _)); [|repeat split].
  destruct (negb (String.eqb _ _)); [|repeat split].
  destruct (Date.toISOString _); repeat split.
Qed.

Lemma locationChanged_fields s s' c t :
  _latitude_ s' = _latitude_ s -> _longitude_ s' = _longitude_ s ->
  _altitude_ s' = _altitude_ s -> _timezone_ s' = _timezone_ s ->
  locationChanged s' c t = locationChanged s c t.
Proof. intros A B C D. unfold locationChanged. rewrite A, B, C, D. reflexivity. Qed.

(** What a call of [setDateTime] that goes through leaves. *)
Lemma setDateTime_after h g s nb cb tv0 tv :
  newDate g = Bound nb -> currentDate g = Bound cb -> _date_ s = Some tv0 ->
  validTime tv0 -> validTime tv ->
  let r := setDateTime h g s (Some tv) in
  thrown r = None
  /\ (exists nb' cb', newDate (globals r) = Bound nb' /\ currentDate (globals r) = Bound cb')
  /\ (exists tv1, _date_ (this r) = Some tv1 /\ validTime tv1
                  /\ substring 0 19 (Date.isoOfTime tv1)
                     = substring 0 19 (Date.isoOfTime tv)).
Proof.
  intros Hn Hc Hd H0 H1. cbv zeta.
  rewrite (setDateTime_cases h g s nb cb tv0 tv Hn Hc Hd H0 H1). cbv zeta.
  destruct (String.eqb_spec (substring 0 19 (Date.isoOfTime tv0))
                            (substring 0 19 (Date.isoOfTime tv))) as [E|E].
  - cbn [thrown globals this]. split; [reflexivity|].
    split; [exists (Date.isoOfTime tv), (Date.isoOfTime tv0); split; reflexivity|].
    exists tv0. auto.
  - destruct (String.eqb _ _); cbn [thrown globals this];
      (split; [reflexivity|]);
      (split; [exists (Date.isoOfTime tv), (Date.isoOfTime tv0); split; reflexivity|]);
      exists tv; auto.
Qed.

(** A call with an instant of the stored second changes nothing. *)
Lemma setDateTime_within_second h g s nb cb tv0 tv :
  newDate g = Bound nb -> currentDate g = Bound cb -> _date_ s = Some tv0 ->
  validTime tv0 -> validTime tv ->
  substring 0 19 (Date.isoOfTime tv0) = substring 0 19 (Date.isoOfTime tv) ->
  let r := setDateTime h g s (Some tv) in
  thrown r = None /\ this r = s.
Proof.
  intros Hn Hc Hd H0 H1 E. cbv zeta.
  rewrite (setDateTime_cases h g s nb cb tv0 tv Hn Hc Hd H0 H1). cbv zeta.
  rewrite E, String.eqb_refl. split; reflexivity.
Qed.

Lemma update_result h scene p g sun :
  let sun1 :=
    fst (setLocation h sun
           (V3 (Vec3.mk (latitude p) (longitude p) (altitude p))) None) in
  let r := setDateTime h g sun1 (Date.now h) in
  frame_sun (update h scene p g sun) = this r
  /\ frame_globals (update h scene p g sun) = globals r
  /\ match thrown r with
     | Some e => frame_result (update h scene p g sun) = Throw e
     | None => exists v, frame_result (update h scene p g sun) = Normal v
     end.
Proof.
  cbv zeta. unfold update.
  destruct (thrown (setDateTime h g _ (Date.now h))); cbn [frame_sun frame_globals frame_result];
    repeat split. eexists. reflexivity.
Qed.

(** X11.  Two frames of the example script, in a scope with both bindings:
    when the sliders have not moved and the clock of the second frame is in
    the same second as the clock of the first, the second [update()]
    leaves [sun] exactly as the first left it, and neither throws. *)
Theorem update_next_frame (h : Host) (scene1 scene2 : Scene) (p : ScriptProperties)
    (g : Globals) (nb cb : string) (sun : SunCalc) (tv0 now2 : Z) :
  newDate g = Bound nb -> currentDate g = Bound cb ->
  _date_ sun = Some tv0 -> validTime tv0 -> is_nan (_timezone_ sun) = false ->
  validTime (clock h) -> validTime now2 ->
  substring 0 19 (Date.isoOfTime (clock h)) = substring 0 19 (Date.isoOfTime now2) ->
  let f1 := update h scene1 p g sun in
  let f2 := update (atTime h now2) scene2 p (frame_globals f1) (frame_sun f1) in
  frame_sun f2 = frame_sun f1
  /\ (exists v, frame_result f1 = Normal v) /\ (exists v, frame_result f2 = Normal v).
Proof.
  intros Hn Hc Hd H0 Hz Hk H2 E. cbv zeta.
  set (c := V3 (Vec3.mk (latitude p) (longitude p) (altitude p))).
  destruct (update_result h scene1 p g sun) as (S1 & G1 & R1). fold c in S1, G1, R1.
  set (sun1 := fst (setLocation h sun c None)) in *.
  assert (D1 : _date_ sun1 = Some tv0) by (unfold sun1; rewrite setLocation_date; exact Hd).
  destruct (setDateTime_after h g sun1 nb cb tv0 (clock h) Hn Hc D1 H0 Hk)
    as (T1 & (nb' & cb' & Hn' & Hc') & (tv1 & Dr & Hv1 & P1)).
  change (Date.now h) with (Some (clock h)) in *.
  rewrite T1 in R1.
  set (r1 := setDateTime h g sun1 (Some (clock h))) in *.
  destruct (update_result (atTime h now2) scene2 p (frame_globals (update h scene1 p g sun))
              (frame_sun (update h scene1 p g sun))) as (S2 & _ & R2).
  fold c in S2, R2. rewrite S1, G1 in S2, R2. rewrite S1, G1.
  change (Date.now (atTime h now2)) with (Some now2) in *.
  assert (L : fst (setLocation (atTime h now2) (this r1) c None) = this r1).
  { rewrite setLocation_fst. cbv zeta.
    destruct (setDateTime_location h g sun1 (Some (clock h))) as (A & B & C & D).
    fold r1 in A, B, C, D.
    rewrite (locationChanged_fields sun1 (this r1) _ _ A B C D).
    cbn [locationTimezone]. rewrite D.
    pose proof (setLocation_settled h sun c None Hz) as F. cbv zeta in F.
    fold sun1 in F. cbn [locationTimezone] in F. rewrite F. reflexivity. }
  rewrite L in S2, R2.
  destruct (setDateTime_within_second (atTime h now2) (globals r1) (this r1) nb' cb' tv1 now2
              Hn' Hc' Dr Hv1 H2 (eq_trans P1 E)) as (T2 & U2).
  rewrite T2 in R2. rewrite U2 in S2.
  split; [exact S2|]. split; [exact R1|exact R2].
Qed.

(** X12.  In a scope that lacks [newDate] or [currentDate], every
    [update()] of the example script throws a ReferenceError: the call
    has moved [sun] to the sliders' location and has not touched its
    instant. *)
Theorem update_undeclared_throws (h : Host) (scene : Scene) (p : ScriptProperties)
    (g : Globals) (sun : SunCalc) (tv0 : Z) :
  unresolvable (newDate g) || unresolvable (currentDate g) = true ->
  _date_ sun = Some tv0 ->
  let f := update h scene p g sun in
  frame_result f = Throw ReferenceError
  /\ frame_sun f
     = fst (setLocation h sun (V3 (Vec3.mk (latitude p) (longitude p) (altitude p))) None)
  /\ _date_ (frame_sun f) = Some tv0.
Proof.
  intros U Hd. cbv zeta.
  set (c := V3 (Vec3.mk (latitude p) (longitude p) (altitude p))).
  destruct (update_result h scene p g sun) as (S1 & _ & R1). fold c in S1, R1.
  set (sun1 := fst (setLocation h sun c None)) in *.
  assert (D1 : _date_ sun1 = Some tv0) by (unfold sun1; rewrite setLocation_date; exact Hd).
  assert (X : setDateTime h g sun1 (Date.now h)
              = Build_Outcome (globals (setDateTime h g sun1 (Date.now h))) sun1
                  (Some ReferenceError)).
  { unfold setDateTime. cbn [Date.now Date.toISOString].
    destruct (newDate g) as [|nb]; cbn [assign]; [reflexivity|].
    rewrite D1. cbn [Date.toISOString].
    destruct (currentDate g) as [|cb]; cbn [assign currentDate unresolvable orb] in *;
      [reflexivity|discriminate U]. }
  rewrite X in S1, R1. cbn [this thrown] in S1, R1.
  split; [exact R1|]. split; [exact S1|]. rewrite S1. exact D1.
Qed.

(** X13.  [init()] of the example script cannot throw: it builds the
    instance at the host's clock, with the three caches fresh and the
    host's offset, negated, as timezone. *)
Theorem init_builds_fresh (h : Host) (p : ScriptProperties) :
  constructed (init h p)
    (fun s => _date_ s = Some (clock h) /\ eventsFresh h s /\ positionFresh h s
              /\ trigFresh h s
              /\ getTimezone s = (- Date.getTimezoneOffset h (Some (clock h)))%float).
Proof.
  unfold init, constructor. cbn [bindC constructed Date.now].
  set (c := V3 _).
  destruct (construct_fresh h c (Some (clock h)) None) as (D & E & P & T).
  split; [exact D|]. split; [exact E|]. split; [exact P|]. split; [exact T|].
  destruct (construct_shape h c (Some (clock h)) None) as (s0 & _ & _ & _).
  reflexivity.
Qed.

End Script.

(* ================================================================== *)
(** ** The further properties at concrete inputs *)

Module MoreExamples.
Import Examples ScriptExamples.
Open Scope Z_scope.

Lemma valid_noon20 : validTime noon20.
Proof. unfold validTime, noon20. lia. Qed.

Lemma valid_noon20plus1s : validTime noon20plus1s.
Proof. unfold validTime, noon20plus1s. lia. Qed.

Lemma valid_noon20plus500ms : validTime noon20plus500ms.
Proof. unfold validTime, noon20plus500ms. lia. Qed.

Lemma valid_after_midnight : validTime after_midnight.
Proof. unfold validTime, after_midnight. lia. Qed.

Lemma equinox_date : _date_ equinox = Some noon20.
Proof. reflexivity. Qed.

Lemma constructor_keeps_instant_witness :
  validTime noon20
  /\ constructed (constructor utc here (Some (Some noon20)) None)
       (fun s => _date_ s = Some noon20 /\ eventsFresh utc s /\ positionFresh utc s
                 /\ trigFresh utc s).
Proof.
  split; [exact valid_noon20|].
  exact (constructor_keeps_instant utc here noon20 None valid_noon20).
Defined.

Lemma reachable_example :
  Reachable utc
    (this (setDateTime utc declared (fst (setLocation utc equinox hill None))
             (Some after_midnight))).
Proof.
  apply reach_setDateTime; [|exact valid_after_midnight].
  apply reach_setLocation.
  apply (reach_new utc here (Some (Some noon20)) None);
    [exact valid_noon20|unfold validTime; cbn; lia|].
  exact (constructor_valid utc here noon20 None valid_noon20).
Qed.

Lemma reachable_coherent_witness :
  let s := this (setDateTime utc declared (fst (setLocation utc equinox hill None))
                   (Some after_midnight)) in
  Reachable utc s
  /\ positionFresh utc s /\ trigFresh utc s
  /\ exists tv, _date_ s = Some tv /\ validTime tv.
Proof.
  cbv zeta. split; [exact reachable_example|].
  exact (reachable_coherent utc _ reachable_example).
Defined.

Lemma setLocation_twice_witness :
  is_nan (locationTimezone equinox (Some 120%float)) = false
  /\ fst (setLocation utc (fst (setLocation utc equinox hill (Some 120%float))) hill
            (Some 120%float))
     = fst (setLocation utc equinox hill (Some 120%float)).
Proof.
  assert (H : is_nan (locationTimezone equinox (Some 120%float)) = false)
    by (vm_compute; reflexivity).
  split; [exact H|].
  exact (setLocation_twice utc equinox hill (Some 120%float) H).
Defined.

Lemma equinox_events_fresh : eventsFresh utc equinox.
Proof. apply (construct_fresh utc here (Some noon20) None). Qed.

Lemma setLocation_keeps_events_fresh_witness :
  eventsFresh utc equinox
  /\ eventsFresh utc (fst (setLocation utc equinox polar None)).
Proof.
  split; [exact equinox_events_fresh|].
  exact (setLocation_keeps_events_fresh utc equinox polar None equinox_events_fresh).
Defined.

Lemma setDateTime_twice_witness :
  let r1 := setDateTime utc declared equinox (Some after_midnight) in
  let r2 := setDateTime utc (globals r1) (this r1) (Some after_midnight) in
  newDate declared = Bound EmptyString /\ currentDate declared = Bound EmptyString
  /\ _date_ equinox = Some noon20 /\ validTime noon20 /\ validTime after_midnight
  /\ thrown r1 = None /\ thrown r2 = None /\ this r2 = this r1.
Proof.
  cbv zeta. do 3 (split; [reflexivity|]).
  split; [exact valid_noon20|]. split; [exact valid_after_midnight|].
  exact (setDateTime_twice utc declared equinox EmptyString EmptyString noon20
           after_midnight eq_refl eq_refl equinox_date valid_noon20 valid_after_midnight).
Defined.

Lemma setDateTime_refreshes_witness :
  let r := setDateTime utc declared equinox (Some after_midnight) in
  newDate declared = Bound EmptyString /\ currentDate declared = Bound EmptyString
  /\ _date_ equinox = Some noon20 /\ validTime noon20 /\ validTime after_midnight
  /\ _date_ (this r) = Some after_midnight /\ eventsFresh utc (this r)
  /\ _last_date_ (this r) = Date.isoOfTime noon20.
Proof.
  cbv zeta. do 3 (split; [reflexivity|]).
  split; [exact valid_noon20|]. split; [exact valid_after_midnight|].
  exact (setDateTime_refreshes utc declared equinox EmptyString EmptyString noon20
           after_midnight eq_refl eq_refl equinox_date valid_noon20 valid_after_midnight).
Defined.

Lemma setDateTime_throws_witness :
  let r := setDateTime utc undeclared equinox (Some after_midnight) in
  _date_ equinox = Some noon20 /\ validTime noon20 /\ validTime after_midnight
  /\ thrown r = Some ReferenceError /\ (thrown r = None \/ this r = equinox).
Proof.
  cbv zeta. split; [reflexivity|].
  split; [exact valid_noon20|]. split; [exact valid_after_midnight|].
  exact (setDateTime_throws utc undeclared equinox noon20 (Some after_midnight)
           equinox_date valid_noon20 valid_after_midnight).
Defined.

Lemma utc_fixed_offset : fixedOffset utc 0.
Proof. intros tv isUTC. reflexivity. Qed.

Lemma east_offset : wholeOffset east None 60.
Proof. right. split; [reflexivity|]. left. vm_compute. reflexivity. Qed.

Lemma accessors_whole_offset_witness :
  fixedOffset utc 0 /\ -1440 <= 60 <= 1440 /\ wholeOffset east None 60
  /\ getDateTime utc east None = moved (_date_ east) 60
  /\ getSunrise utc east None = moved (_sunrise_ (events east)) 60.
Proof.
  assert (R : -1440 <= 60 <= 1440) by lia.
  split; [exact utc_fixed_offset|]. split; [exact R|]. split; [exact east_offset|].
  destruct (accessors_whole_offset utc 0 utc_fixed_offset east None 60 R east_offset)
    as (A & B & _).
  split; [exact A|exact B].
Defined.

Lemma events_whole_seconds_witness :
  fixedOffset utc 0
  /\ Forall (wholeSecond 0) (eventList (events (_updateStatic_ utc equinox))).
Proof.
  split; [exact utc_fixed_offset|].
  exact (events_whole_seconds utc 0 utc_fixed_offset equinox).
Defined.

Lemma same_second : 
  substring 0 19 (Date.isoOfTime (clock utcNoon))
  = substring 0 19 (Date.isoOfTime noon20plus500ms).
Proof. vm_compute. reflexivity. Qed.

Lemma equinox_timezone : is_nan (_timezone_ equinox) = false.
Proof. vm_compute. reflexivity. Qed.

Lemma update_next_frame_witness :
  let f1 := update utcNoon midday sliders declared equinox in
  let f2 := update (atTime utcNoon noon20plus500ms) midday sliders
              (frame_globals f1) (frame_sun f1) in
  _date_ equinox = Some noon20 /\ is_nan (_timezone_ equinox) = false
  /\ validTime (clock utcNoon) /\ validTime noon20plus500ms
  /\ substring 0 19 (Date.isoOfTime (clock utcNoon))
     = substring 0 19 (Date.isoOfTime noon20plus500ms)
  /\ frame_sun f2 = frame_sun f1
  /\ (exists v, frame_result f1 = Normal v) /\ (exists v, frame_result f2 = Normal v).
Proof.
  cbv zeta. split; [reflexivity|]. split; [exact equinox_timezone|].
  split; [exact valid_noon20|]. split; [exact valid_noon20plus500ms|].
  split; [exact same_second|].
  exact (Script.update_next_frame utcNoon midday midday sliders declared
           EmptyString EmptyString equinox noon20 noon20plus500ms
           eq_refl eq_refl equinox_date valid_noon20 equinox_timezone
           valid_noon20 valid_noon20plus500ms same_second).
Defined.

Lemma update_undeclared_throws_witness :
  let f := update utcNoon midday sliders undeclared equinox in
  unresolvable (newDate undeclared) || unresolvable (currentDate undeclared) = true
  /\ _date_ equinox = Some noon20
  /\ frame_result f = Throw ReferenceError
  /\ frame_sun f
     = fst (setLocation utcNoon equinox
              (V3 (Vec3.mk (latitude sliders) (longitude sliders) (altitude sliders)))
              None)
  /\ _date_ (frame_sun f) = Some noon20.
Proof.
  cbv zeta. split; [reflexivity|]. split; [reflexivity|].
  exact (Script.update_undeclared_throws utcNoon midday sliders undeclared equinox
           noon20 eq_refl equinox_date).
Defined.

End MoreExamples.
